(** * BMI calculator and tracker: a shallow embedding of [bmi_gui_app.py]

    The Python program keeps two SQLite tables ([users], [records]), computes
    a body-mass index from two Tk entry fields and shows, plots and exports
    the history of a user.  The embedding below follows the source function
    by function:

    - Python [float] is IEEE 754 binary64, modelled by [spec_float] with
      [prec = 53] and [emax = 1024]; the arithmetic is the correctly rounded
      one of the standard library's [SpecFloat];
    - the C library's [pow], which [**] calls and which does not round
      correctly, is a parameter [libm_pow] of every definition that
      reaches it;
    - Python exceptions are a [result] type, threaded with a small monad;
    - a Python [str] is a [string] read as a sequence of code points below
      256 (Latin-1 text);
    - the database file is a record [db] of two row lists and the two
      AUTOINCREMENT counters; every helper takes the database and returns
      the new one;
    - the Tk widgets the handlers read and write are the record [gui]; the
      dialogs a handler opens are returned as a list of [dialog] events. *)

From Stdlib Require Import ZArith List String Ascii Bool Lia DecimalString.
From Stdlib Require Import Sorting.Sorted Sorting.Permutation.
From Stdlib Require Import Floats.SpecFloat.
Import ListNotations.

Local Open Scope string_scope.
Local Open Scope Z_scope.

(** ** Python values *)

Module Py.

(** *** Exceptions *)

Inductive exn_kind : Type :=
| ValueError
| ZeroDivisionError
| OverflowError
| IntegrityError.

(** An exception is its class and the text [str(e)] the handlers display. *)
Record exn : Type := mk_exn { exn_class : exn_kind; exn_text : string }.

Inductive result (A : Type) : Type :=
| Ok (a : A)
| Raise (e : exn).

Arguments Ok {A} a.
Arguments Raise {A} e.

Definition bind {A B : Type} (c : result A) (k : A -> result B) : result B :=
  match c with
  | Ok a => k a
  | Raise e => Raise e
  end.

Definition raises {A : Type} (c : result A) (k : exn_kind) : Prop :=
  exists msg, c = Raise (mk_exn k msg).

Definition returns {A : Type} (c : result A) : Prop :=
  exists v, c = Ok v.

(** *** Floats: binary64 *)

Definition float : Type := spec_float.

Definition prec : Z := 53.
Definition emax : Z := 1024.

(** [m * 2^e] rounded to the nearest double, ties to even. *)
Definition float_of_scaled (m e : Z) : float := binary_normalize prec emax m e false.

(** [float(n)] for an [int] that a comparison or an operator meets. *)
Definition float_of_int (n : Z) : float := float_of_scaled n 0.

Definition fmul : float -> float -> float := SFmul prec emax.
Definition fdiv : float -> float -> float := SFdiv prec emax.
Definition fadd : float -> float -> float := SFadd prec emax.

(** The comparison operators [<], [<=] and [==] of [float]: every
    comparison with a NaN is false, and the two zeros are equal. *)
Definition flt : float -> float -> bool := SFltb.
Definition fle : float -> float -> bool := SFleb.
Definition feq : float -> float -> bool := SFeqb.

Definition is_nan (x : float) : bool :=
  match x with S754_nan => true | _ => false end.

Definition is_zero (x : float) : bool :=
  match x with S754_zero _ => true | _ => false end.

Definition is_finite (x : float) : bool :=
  match x with S754_zero _ | S754_finite _ _ _ => true | _ => false end.

(** [a / b] on floats ([float_div] of CPython): a zero divisor raises,
    everything else is the IEEE quotient, infinities and NaN included. *)
Definition float_truediv (a b : float) : result float :=
  if is_zero b
  then Raise (mk_exn ZeroDivisionError "float division by zero")
  else Ok (fdiv a b).

(** The floats 1.0 and 2.0. *)
Definition one : float := float_of_int 1.
Definition two : float := float_of_int 2.

Section FloatPow.

(** The C library's [pow].  The C standard does not ask it to round
    correctly, and glibc's does not: [pow x 2.0] may differ from the
    rounded product [x * x] in the last place, so it stays a parameter.
    Of [errno] the model keeps what glibc does: a range error when the
    result overflows or underflows to zero, and no other. *)
Variable libm_pow : float -> float -> float.

(** [x ** 2] on a float ([float_pow] of CPython with the exponent 2
    converted to 2.0): a NaN is returned as it is, an infinity gives
    [+inf] and a zero gives [+0.0] because the exponent is even; a
    negative base is replaced by its absolute value, the base 1.0 gives
    1.0, and every other finite base goes to [pow].  A result that
    overflows raises [OverflowError]; a result that underflows to zero is
    returned. *)
Definition float_pow2 (iv : float) : result float :=
  match iv with
  | S754_nan => Ok iv
  | S754_infinity _ => Ok (SFabs iv)
  | S754_zero _ => Ok (S754_zero false)
  | S754_finite _ _ _ =>
      let iv := SFabs iv in
      if feq iv one then Ok one
      else
        match libm_pow iv two with
        | S754_infinity _ =>
            Raise (mk_exn OverflowError "(34, 'Numerical result out of range')")
        | ix => Ok ix
        end
  end.

End FloatPow.

(** A [pow] for the sample runs: at the exponent 2.0, the correctly rounded
    square.  The samples take it at 1.75, whose square is a double, and at
    1e-200 and 1e200, whose squares lie far outside the doubles: there
    every [pow] whose error is below one unit in the last place returns
    the same. *)
Definition pow_sample (x y : float) : float :=
  if feq y two then fmul x x else S754_nan.

End Py.

Export Py.

Notation "x <- c ;; k" := (bind c (fun x => k))
  (at level 61, c at next level, right associativity).

(** ** Strings *)

Module Str.

(** [str.isspace] on the code points below 256. *)
Definition isspace (c : ascii) : bool :=
  let n := Z.of_N (N_of_ascii c) in
  ((9 <=? n) && (n <=? 13)) || ((28 <=? n) && (n <=? 32)) || (n =? 133) || (n =? 160).

Fixpoint lstrip (s : string) : string :=
  match s with
  | "" => ""
  | String c r => if isspace c then lstrip r else s
  end.

Fixpoint rstrip (s : string) : string :=
  match s with
  | "" => ""
  | String c r =>
      match rstrip r with
      | "" => if isspace c then "" else String c ""
      | r' => String c r'
      end
  end.

(** [s.strip()] *)
Definition strip (s : string) : string := rstrip (lstrip s).

(** A text with nothing but white space, the empty one included. *)
Fixpoint blank (s : string) : bool :=
  match s with
  | "" => true
  | String c r => isspace c && blank r
  end.

(** A text that does not start with a space. *)
Definition no_leading_space (s : string) : Prop :=
  match s with
  | "" => True
  | String c _ => isspace c = false
  end.

Definition is_digit (c : ascii) : bool :=
  let n := Z.of_N (N_of_ascii c) in (48 <=? n) && (n <=? 57).

Definition digit_value (c : ascii) : Z := Z.of_N (N_of_ascii c) - 48.

Definition lower (c : ascii) : ascii :=
  let n := N_of_ascii c in
  if ((65 <=? n) && (n <=? 90))%N then ascii_of_N (n + 32) else c.

Fixpoint lower_str (s : string) : string :=
  match s with
  | "" => ""
  | String c r => String (lower c) (lower_str r)
  end.

Definition hex_digit (n : Z) : ascii :=
  ascii_of_N (Z.to_N (if n <? 10 then 48 + n else 87 + n)).

(** [str.isprintable] on the code points below 256. *)
Definition isprintable (c : ascii) : bool :=
  let n := Z.of_N (N_of_ascii c) in
  ((32 <=? n) && (n <=? 126)) || ((161 <=? n) && negb (n =? 173)).

Fixpoint repr_body (q : ascii) (s : string) : string :=
  match s with
  | "" => ""
  | String c r =>
      let n := Z.of_N (N_of_ascii c) in
      (if (Ascii.eqb c q) || (n =? 92) then String "\" (String c "")
       else if n =? 10 then "\n"
       else if n =? 13 then "\r"
       else if n =? 9 then "\t"
       else if isprintable c then String c ""
       else "\x" ++ String (hex_digit (n / 16)) (String (hex_digit (n mod 16)) ""))
      ++ repr_body q r
  end.

Fixpoint contains (c : ascii) (s : string) : bool :=
  match s with
  | "" => false
  | String d r => Ascii.eqb c d || contains c r
  end.

(** [repr(s)] of a string: single quotes unless the text has one and no
    double quote. *)
Definition repr (s : string) : string :=
  let q := if contains "'" s && negb (contains "034" s) then "034"%char else "'"%char in
  String q (repr_body q s ++ String q "").

End Str.

Import Str.

(** ** Text of numbers *)

Module Text.

(** Decimal digits of a non-negative integer. *)
Definition digits_of_Z (n : Z) : string :=
  NilZero.string_of_uint (N.to_uint (Z.to_N n)).

Fixpoint zeros (n : nat) : string :=
  match n with
  | O => ""
  | S k => String "0" (zeros k)
  end.

(** [n] written on at least [w] digits. *)
Definition pad_digits (w : nat) (n : Z) : string :=
  let d := digits_of_Z n in
  zeros (w - String.length d) ++ d.

(** The exact value of a positive finite double [m * 2^e] as a fraction. *)
Definition ratio_of_finite (m : positive) (e : Z) : Z * Z :=
  if 0 <=? e then (Zpos m * 2 ^ e, 1) else (Zpos m, 2 ^ (- e)).

(** [num / den] rounded to the nearest integer, ties to even. *)
Definition round_half_even (num den : Z) : Z :=
  let q := num / den in
  let r := num mod den in
  match 2 * r ?= den with
  | Lt => q
  | Gt => q + 1
  | Eq => if Z.even q then q else q + 1
  end.

(** [format(x, '.2f')]: the exact binary value rounded to two decimals,
    ties to even; the sign of a negative zero or of a negative value that
    rounds to zero is kept. *)
Definition format_2f (x : float) : string :=
  match x with
  | S754_nan => "nan"
  | S754_infinity s => if s then "-inf" else "inf"
  | S754_zero s => if s then "-0.00" else "0.00"
  | S754_finite s m e =>
      let '(num, den) := ratio_of_finite m e in
      let q := round_half_even (num * 100) den in
      (if s then "-" else "") ++ digits_of_Z (q / 100) ++ "." ++ pad_digits 2 (q mod 100)
  end.

(** The double nearest to [num / den], for positive [num] and [den]. *)
Definition float_of_ratio (s : bool) (num den : Z) : float :=
  match num, den with
  | Zpos n, Zpos d => fdiv (S754_finite s n 0) (S754_finite false d 0)
  | _, _ => S754_zero s
  end.

(** The double nearest to [d * 10^p]. *)
Definition float_of_decimal (s : bool) (d p : Z) : float :=
  if 0 <=? p then float_of_ratio s (d * 10 ^ p) 1
  else float_of_ratio s d (10 ^ (- p)).

Definition float_eqb (x y : float) : bool :=
  match x, y with
  | S754_zero a, S754_zero b => Bool.eqb a b
  | S754_infinity a, S754_infinity b => Bool.eqb a b
  | S754_nan, S754_nan => true
  | S754_finite a m e, S754_finite b n f => Bool.eqb a b && Pos.eqb m n && Z.eqb e f
  | _, _ => false
  end.

(** The first [k' >= k] with [p k'], looking at [fuel] values at most. *)
Fixpoint first_from (fuel : nat) (p : Z -> bool) (k : Z) : Z :=
  match fuel with
  | O => k
  | S f => if p k then k else first_from f p (k + 1)
  end.

(** [floor (log10 (num / den))] for a positive double. *)
Definition floor_log10 (num den : Z) : Z :=
  first_from 700 (fun k => if 0 <=? k + 1 then num <? den * 10 ^ (k + 1)
                           else num * 10 ^ (- (k + 1)) <? den) (-330).

(** The candidates on [n] digits around [num / den]: the decimal just below
    and the one just above, with the exponent of their last digit, and
    whether the upper one is strictly nearer (or as near, and even). *)
Definition candidates (num den k : Z) (n : Z) : Z * Z * bool :=
  let p := k - n + 1 in
  let '(a, b) := if 0 <=? p then (num, den * 10 ^ p) else (num * 10 ^ (- p), den) in
  let lo := a / b in
  let r := a mod b in
  let up := match 2 * r ?= b with
            | Lt => false
            | Gt => true
            | Eq => Z.odd lo
            end in
  (lo, p, up).

(** Digits and exponent of the shortest decimal that reads back as [x]
    (mode 0 of [dtoa]): the first length, from 1 to 17 digits, at which a
    neighbouring decimal rounds to [x]; the nearer of the two when both do. *)
Fixpoint shortest_from (fuel : nat) (x : float) (num den k n : Z) : Z * Z :=
  let '(lo, p, up) := candidates num den k n in
  let ok_lo := float_eqb (float_of_decimal false lo p) x in
  let ok_hi := float_eqb (float_of_decimal false (lo + 1) p) x in
  match fuel with
  | O => (if up then lo + 1 else lo, p)
  | S f =>
      if ok_lo && ok_hi then (if up then lo + 1 else lo, p)
      else if ok_lo then (lo, p)
      else if ok_hi then (lo + 1, p)
      else shortest_from f x num den k (n + 1)
  end.

(** Trailing zeros of the digits move into the exponent. *)
Fixpoint strip_zeros (fuel : nat) (d p : Z) : Z * Z :=
  match fuel with
  | O => (d, p)
  | S f => if (d mod 10 =? 0) && negb (d =? 0) then strip_zeros f (d / 10) (p + 1) else (d, p)
  end.

(** [repr(x)], which is also [str(x)], of a float. *)
Definition float_repr (x : float) : string :=
  match x with
  | S754_nan => "nan"
  | S754_infinity s => if s then "-inf" else "inf"
  | S754_zero s => if s then "-0.0" else "0.0"
  | S754_finite s m e =>
      let '(num, den) := ratio_of_finite m e in
      let k := floor_log10 num den in
      let '(d0, p0) := shortest_from 16 (S754_finite false m e) num den k 1 in
      let '(d, p) := strip_zeros 20 d0 p0 in
      let ds := digits_of_Z d in
      let len := Z.of_nat (String.length ds) in
      let decpt := len + p in
      let body :=
        if (decpt <=? -4) || (16 <? decpt) then
          let mant := match ds with
                      | String c "" => String c ""
                      | String c rest => String c ("." ++ rest)
                      | "" => ""
                      end in
          let ex := decpt - 1 in
          mant ++ "e" ++ (if ex <? 0 then "-" else "+") ++ pad_digits 2 (Z.abs ex)
        else if decpt <=? 0 then "0." ++ zeros (Z.to_nat (- decpt)) ++ ds
        else if len <=? decpt then ds ++ zeros (Z.to_nat (decpt - len)) ++ ".0"
        else substring 0 (Z.to_nat decpt) ds ++ "." ++
             substring (Z.to_nat decpt) (Z.to_nat (len - decpt)) ds
      in
      (if s then "-" else "") ++ body
  end.

End Text.

Import Text.

(** ** The built-in [float] on a string *)

Module Parse.

(** Underscores are dropped when each stands between two digits. *)
Fixpoint drop_underscores (prev_digit : bool) (s : string) : option string :=
  match s with
  | "" => Some ""
  | String c r =>
      if Ascii.eqb c "_" then
        match r with
        | String d _ =>
            if prev_digit && is_digit d then drop_underscores false r else None
        | "" => None
        end
      else
        match drop_underscores (is_digit c) r with
        | Some r' => Some (String c r')
        | None => None
        end
  end.

(** The leading digits of [s]: their value after [acc], their number, and
    what follows. *)
Fixpoint digits (s : string) (acc : Z) (n : Z) : Z * Z * string :=
  match s with
  | String c r => if is_digit c then digits r (acc * 10 + digit_value c) (n + 1) else (acc, n, s)
  | "" => (acc, n, s)
  end.

Definition sign (s : string) : bool * string :=
  match s with
  | String "-" r => (true, r)
  | String "+" r => (false, r)
  | _ => (false, s)
  end.

(** The exponent part: absent, or [e], an optional sign and digits. *)
Definition exponent (s : string) : option Z :=
  match s with
  | "" => Some 0
  | String c r =>
      if Ascii.eqb (lower c) "e" then
        let '(neg, r1) := sign r in
        let '(v, n, r2) := digits r1 0 0 in
        if (0 <? n) && String.eqb r2 "" then Some (if neg then - v else v) else None
      else None
  end.

Definition number_of (neg : bool) (d p : Z) : float :=
  if d =? 0 then S754_zero neg
  else
    let n := Z.of_nat (String.length (digits_of_Z d)) in
    if 310 <? n + p then S754_infinity neg
    else if n + p <? -330 then S754_zero neg
    else float_of_decimal neg d p.

(** The number a stripped, underscore-free text denotes, if it is one. *)
Definition parse_number (s : string) : option float :=
  let '(neg, r) := sign s in
  let l := lower_str r in
  if String.eqb l "inf" || String.eqb l "infinity" then Some (S754_infinity neg)
  else if String.eqb l "nan" then Some S754_nan
  else
    let '(i, ni, r1) := digits r 0 0 in
    let '(m, nf, r2) :=
      match r1 with
      | String "." r' => let '(m, nf, r2) := digits r' i 0 in (m, nf, r2)
      | _ => (i, 0, r1)
      end in
    if ni + nf =? 0 then None
    else
      match exponent r2 with
      | Some e => Some (number_of neg m (e - nf))
      | None => None
      end.

(** The white space [float] skips at both ends of its argument: the white
    space above the ASCII range, which it first turns into spaces, and the
    ASCII white space of C.  The separators U+001C to U+001F, which
    [str.strip] removes, are not among them. *)
Definition float_space (c : ascii) : bool :=
  let n := Z.of_N (N_of_ascii c) in
  ((9 <=? n) && (n <=? 13)) || (n =? 32) || (n =? 133) || (n =? 160).

Fixpoint skip_left (s : string) : string :=
  match s with
  | "" => ""
  | String c r => if float_space c then skip_left r else s
  end.

Fixpoint skip_right (s : string) : string :=
  match s with
  | "" => ""
  | String c r =>
      match skip_right r with
      | "" => if float_space c then "" else String c ""
      | r' => String c r'
      end
  end.

(** [float(s)] for a string. *)
Definition float_of_str (s : string) : result float :=
  let bad := Raise (mk_exn ValueError ("could not convert string to float: " ++ repr s)) in
  match drop_underscores false (skip_right (skip_left s)) with
  | Some t =>
      match parse_number t with
      | Some x => Ok x
      | None => bad
      end
  | None => bad
  end.

End Parse.

(** ** BMI logic *)

(** The literals of the source. *)
Definition lit_0 : float := float_of_int 0.
Definition lit_18_5 : float := float_of_scaled 37 (-1).
Definition lit_25_0 : float := float_of_int 25.
Definition lit_30_0 : float := float_of_int 30.

Section BmiLogic.

Variable libm_pow : float -> float -> float.

(** [calculate_bmi], lines 118-123. *)
Definition calculate_bmi (weight_kg height_m : float) : result float :=
  if fle height_m lit_0
  then Raise (mk_exn ValueError "Height must be positive and non-zero.")
  else
    sq <- float_pow2 libm_pow height_m ;;
    bmi <- float_truediv weight_kg sq ;;
    Ok bmi.

(** Whether [height ** 2], for a finite height, underflows to zero, and
    whether it overflows. *)
Definition pow2_underflows (h : float) : bool :=
  match h, float_pow2 libm_pow h with
  | S754_finite _ _ _, Ok (S754_zero _) => true
  | _, _ => false
  end.

Definition pow2_overflows (h : float) : bool :=
  match h, float_pow2 libm_pow h with
  | S754_finite _ _ _, Raise _ => true
  | _, _ => false
  end.

End BmiLogic.

(** [bmi_category], lines 125-134. *)
Definition bmi_category (bmi : float) : string :=
  if flt bmi lit_18_5 then "Underweight"
  else if flt bmi lit_25_0 then "Normal"
  else if flt bmi lit_30_0 then "Overweight"
  else "Obese".

(** The bands as the specification words them, each with both of its
    bounds, for comparison with [bmi_category]. *)
Definition categorize_spec (bmi : float) : string :=
  if flt bmi lit_18_5 then "Underweight"
  else if fle lit_18_5 bmi && flt bmi lit_25_0 then "Normal"
  else if fle lit_25_0 bmi && flt bmi lit_30_0 then "Overweight"
  else "Obese".

(** ** The [statistics] module and the built-ins [min] and [max] *)

Module Statistics.

(** The exact sum of the finite items, as [fst * 2 ^ snd]. *)
Definition add_exact (acc : Z * Z) (x : float) : Z * Z :=
  match x with
  | S754_finite s m e =>
      let '(t, et) := acc in
      let e0 := Z.min et e in
      (t * 2 ^ (et - e0) + (if s then Zneg m else Zpos m) * 2 ^ (e - e0), e0)
  | _ => acc
  end.

Definition exact_sum (data : list float) : Z * Z :=
  fold_left add_exact data (0, 0).

(** [statistics.mean] of the non-empty list [x :: xs] of floats: the exact
    sum of the items divided by their number and rounded once.  When an
    item is infinite the finite ones are ignored: the infinite items are
    added as floats and the total is divided by the count. *)
Definition mean_of (x : float) (xs : list float) : float :=
  let data := x :: xs in
  let n := Z.of_nat (List.length data) in
  match filter (fun y => negb (is_finite y)) data with
  | [] =>
      match exact_sum data with
      | (Zpos t, e) => fdiv (S754_finite false t e) (float_of_int n)
      | (Zneg t, e) => fdiv (S754_finite true t e) (float_of_int n)
      | (Z0, _) => S754_zero false
      end
  | special => fdiv (fold_left fadd special (float_of_int 0)) (float_of_int n)
  end.

(** [min(x :: xs)]: a later item replaces the current one when it is
    smaller. *)
Definition min_of (x : float) (xs : list float) : float :=
  fold_left (fun m item => if flt item m then item else m) xs x.

(** [max(x :: xs)]: a later item replaces the current one when it is
    greater. *)
Definition max_of (x : float) (xs : list float) : float :=
  fold_left (fun m item => if flt m item then item else m) xs x.

End Statistics.
Import Statistics.

(** ** Database helpers *)

(** A row of [users] and a row of [records], with the columns of the
    schema of [init_db]. *)
Record user_row : Type := mk_user { user_id : Z; user_name : string }.

Record record_row : Type := mk_record {
  rec_id : Z;
  rec_user_id : Z;
  rec_date : string;
  rec_weight_kg : float;
  rec_height_m : float;
  rec_bmi : float;
  rec_category : string
}.

(** The database file: the two tables in rowid order and, for each, the
    largest rowid AUTOINCREMENT has handed out. *)
Record db : Type := mk_db {
  users : list user_row;
  records : list record_row;
  users_seq : Z;
  records_seq : Z
}.

Definition empty_db : db := mk_db [] [] 0 0.


(** What SQLite keeps of a float bound to a REAL column: a NaN is bound as
    NULL, and a zero is stored as the integer 0 and read back as [0.0]. *)
Definition sqlite_real (x : float) : option float :=
  match x with
  | S754_nan => None
  | S754_zero _ => Some (S754_zero false)
  | _ => Some x
  end.

Definition not_null_failed (column : string) : exn :=
  mk_exn IntegrityError ("NOT NULL constraint failed: records." ++ column).

(** [get_or_create_user], lines 50-65. *)
Definition get_or_create_user (name : string) (d : db) : option Z * db :=
  let name := strip name in
  if String.eqb name "" then (None, d)
  else
    match find (fun u => String.eqb (user_name u) name) (users d) with
    | Some row => (Some (user_id row), d)
    | None =>
        let lastrowid := users_seq d + 1 in
        (Some lastrowid,
         mk_db (users d ++ [mk_user lastrowid name]) (records d)
               lastrowid (records_seq d))
    end.

(** Whether [users] has a row with this name. *)
Definition has_user (name : string) (d : db) : bool :=
  existsb (fun u => String.eqb (user_name u) name) (users d).

(** [save_record], lines 68-77; [now] is the text of
    [datetime.now().isoformat(timespec='seconds')].  The NOT NULL columns
    refuse the NULL a NaN is bound as; foreign keys are not enforced. *)
Definition save_record (now : string) (user_id : Z) (weight height bmi : float)
    (category : string) (d : db) : result db :=
  match sqlite_real weight with
  | None => Raise (not_null_failed "weight_kg")
  | Some w =>
      match sqlite_real height with
      | None => Raise (not_null_failed "height_m")
      | Some h =>
          match sqlite_real bmi with
          | None => Raise (not_null_failed "bmi")
          | Some b =>
              let rowid := records_seq d + 1 in
              Ok (mk_db (users d)
                        (records d ++ [mk_record rowid user_id now w h b category])
                        (users_seq d) rowid)
          end
      end
  end.

(** ORDER BY: a stable insertion sort, so that rows with equal keys stay
    in rowid order. *)
Fixpoint insert_by {A : Type} (le : A -> A -> bool) (x : A) (l : list A) : list A :=
  match l with
  | [] => [x]
  | y :: r => if le x y then x :: l else y :: insert_by le x r
  end.

Definition order_by {A : Type} (le : A -> A -> bool) (l : list A) : list A :=
  fold_right (insert_by le) [] l.

(** The relation a boolean order decides. *)
Definition holds {A : Type} (le : A -> A -> bool) (a b : A) : Prop := le a b = true.

(** The UTF-8 bytes of a text of code points below 256. *)
Fixpoint utf8 (s : string) : string :=
  match s with
  | "" => ""
  | String c r =>
      let n := N_of_ascii c in
      if (n <? 128)%N then String c (utf8 r)
      else String (ascii_of_N (192 + n / 64))
                  (String (ascii_of_N (128 + n mod 64)) (utf8 r))
  end.

(** [sqlite3StrNICmp] over the bytes both texts have: the ASCII capitals
    are folded, and the walk stops at the first byte that differs and at a
    NUL of the left text. *)
Fixpoint strnicmp (a b : string) : comparison :=
  match a, b with
  | String x a', String y b' =>
      if (N_of_ascii x =? 0)%N || negb (Ascii.eqb (lower x) (lower y))
      then Ascii.compare (lower x) (lower y)
      else strnicmp a' b'
  | _, _ => Eq
  end.

(** COLLATE NOCASE: [sqlite3StrNICmp] on the UTF-8 bytes, and the byte
    lengths when it finds no difference. *)
Definition nocase_compare (a b : string) : comparison :=
  match strnicmp (utf8 a) (utf8 b) with
  | Eq => Nat.compare (String.length (utf8 a)) (String.length (utf8 b))
  | c => c
  end.

Definition nocase_leb (a b : string) : bool :=
  match nocase_compare a b with
  | Gt => false
  | _ => true
  end.

(** [fetch_users], lines 80-86. *)
Definition fetch_users (d : db) : list user_row :=
  order_by (fun a b => nocase_leb (user_name a) (user_name b)) (users d).

(** A row of the SELECT of [fetch_records_for_user], and the dict
    [fetch_all_records_for_user_as_dicts] makes of it: the six columns
    [id, date, weight_kg, height_m, bmi, category]. *)
Record history_row : Type := mk_history {
  h_id : Z;
  h_date : string;
  h_weight_kg : float;
  h_height_m : float;
  h_bmi : float;
  h_category : string
}.

Definition date_leb (a b : history_row) : bool := String.leb (h_date a) (h_date b).

Definition select_columns (r : record_row) : history_row :=
  mk_history (rec_id r) (rec_date r) (rec_weight_kg r) (rec_height_m r)
             (rec_bmi r) (rec_category r).

(** [fetch_records_for_user], lines 89-100. *)
Definition fetch_records_for_user (user_id : Z) (d : db) : list history_row :=
  order_by date_leb
    (map select_columns (filter (fun r => rec_user_id r =? user_id) (records d))).

(** [fetch_all_records_for_user_as_dicts], lines 103-115. *)
Definition fetch_all_records_for_user_as_dicts (user_id : Z) (d : db) : list history_row :=
  map (fun r => mk_history (h_id r) (h_date r) (h_weight_kg r) (h_height_m r)
                           (h_bmi r) (h_category r))
      (fetch_records_for_user user_id d).

(** The invariant of a row of [records]: [height ** 2] has a value, which
    is not zero, and the BMI equals, as floats compare, the weight over it;
    the category is the band of the BMI; the height is strictly
    positive. *)
Definition record_ok (libm_pow : float -> float -> float) (r : record_row) : Prop :=
  (exists sq,
     float_pow2 libm_pow (rec_height_m r) = Ok sq /\ is_zero sq = false /\
     feq (rec_bmi r) (fdiv (rec_weight_kg r) sq) = true) /\
  rec_category r = bmi_category (rec_bmi r) /\
  rec_category r = categorize_spec (rec_bmi r) /\
  fle (rec_height_m r) lit_0 = false /\
  flt lit_0 (rec_height_m r) = true.

(** Ascending dates, as the TEXT column compares. *)
Definition date_le (a b : history_row) : Prop := String.leb (h_date a) (h_date b) = true.

(** ** The window *)

(** The plot: its title and the points drawn, date against BMI. *)
Record plot : Type := mk_plot { plot_title : string; plot_points : list (string * float) }.

(** The variables and widgets the handlers use. *)
Record gui : Type := mk_gui {
  name_var : string;
  weight_var : string;
  height_var : string;
  result_str : string;
  cat_str : string;
  user_combo_var : string;
  user_combo_values : list string;
  tree : list (list string);
  stat_mean : string;
  stat_min : string;
  stat_max : string;
  ax : plot
}.

(** The message boxes a handler shows, with title and text. *)
Inductive dialog : Type :=
| ShowWarning (title message : string)
| ShowError (title message : string)
| ShowInfo (title message : string).

Definition set_result (g : gui) (r c : string) : gui :=
  mk_gui (name_var g) (weight_var g) (height_var g) r c
         (user_combo_var g) (user_combo_values g) (tree g)
         (stat_mean g) (stat_min g) (stat_max g) (ax g).

Definition set_combo (g : gui) (selected : string) (values : list string) : gui :=
  mk_gui (name_var g) (weight_var g) (height_var g) (result_str g) (cat_str g)
         selected values (tree g)
         (stat_mean g) (stat_min g) (stat_max g) (ax g).

Definition set_history (g : gui) (rows : list (list string)) (mean mn mx : string) : gui :=
  mk_gui (name_var g) (weight_var g) (height_var g) (result_str g) (cat_str g)
         (user_combo_var g) (user_combo_values g) rows
         mean mn mx (ax g).

Definition set_plot (g : gui) (p : plot) : gui :=
  mk_gui (name_var g) (weight_var g) (height_var g) (result_str g) (cat_str g)
         (user_combo_var g) (user_combo_values g) (tree g)
         (stat_mean g) (stat_min g) (stat_max g) p.

(** [clear_history_table], lines 321-326. *)
Definition clear_history_table (g : gui) : gui :=
  set_history g [] "Mean BMI: N/A" "Min BMI: N/A" "Max BMI: N/A".

(** [clear_plot], lines 348-353. *)
Definition clear_plot (g : gui) : gui :=
  set_plot g (mk_plot "No user selected" []).

(** The three statistics labels of [populate_history_for_user], lines
    335-346. *)
Definition summary (bmis : list float) : string * string * string :=
  match bmis with
  | b :: bs =>
      let mean_b := mean_of b bs in
      let min_b := min_of b bs in
      let max_b := max_of b bs in
      ("Mean BMI: " ++ format_2f mean_b,
       "Min BMI: " ++ format_2f min_b,
       "Max BMI: " ++ format_2f max_b)
  | [] => ("Mean BMI: N/A", "Min BMI: N/A", "Max BMI: N/A")
  end.

(** [populate_history_for_user], lines 328-346. *)
Definition populate_history_for_user (user_id : Z) (d : db) (g : gui) : gui :=
  let g := clear_history_table g in
  let records := fetch_records_for_user user_id d in
  let rows := map (fun rec => [h_date rec; format_2f (h_weight_kg rec);
                               format_2f (h_height_m rec); format_2f (h_bmi rec);
                               h_category rec]) records in
  let bmis := map h_bmi records in
  let '(mean, mn, mx) := summary bmis in
  set_history g (tree g ++ rows) mean mn mx.

(** [plot_for_user], lines 355-372: the points of the line; the labels of
    the axes and the annotations are not modelled. *)
Definition plot_for_user (user_id : Z) (d : db) (g : gui) : gui :=
  match fetch_records_for_user user_id d with
  | [] => clear_plot g
  | rows => set_plot g (mk_plot "BMI Trend" (map (fun r => (h_date r, h_bmi r)) rows))
  end.

Definition mem_str (s : string) (l : list string) : bool :=
  existsb (String.eqb s) l.

(** [refresh_users_dropdown], lines 294-303. *)
Definition refresh_users_dropdown (d : db) (g : gui) : gui :=
  let names := map user_name (fetch_users d) in
  let g := set_combo g (user_combo_var g) names in
  if mem_str (user_combo_var g) names then g
  else clear_plot (clear_history_table (set_combo g "" names)).

(** The loop of [on_user_selected] and of [export_history_csv] that looks
    a user up by name. *)
Definition find_user_id (name : string) (d : db) : option Z :=
  match find (fun u => String.eqb (user_name u) name) (fetch_users d) with
  | Some u => Some (user_id u)
  | None => None
  end.

(** [on_user_selected], lines 305-319. *)
Definition on_user_selected (d : db) (g : gui) : gui :=
  let name := user_combo_var g in
  if String.eqb name "" then g
  else
    match find_user_id name d with
    | None => g
    | Some uid => plot_for_user uid d (populate_history_for_user uid d g)
    end.

(** What a handler leaves behind: the database, the window, the dialogs
    it showed, and the exception that escaped it, if one did. *)
Record outcome : Type := mk_outcome {
  out_db : db;
  out_gui : gui;
  out_dialogs : list dialog;
  out_uncaught : option exn
}.

(** The handler ended with the dialog that reports a saved record. *)
Definition is_saved (o : outcome) : bool :=
  match out_uncaught o, out_dialogs o with
  | None, [ShowInfo title _] => String.eqb title "Saved"
  | _, _ => false
  end.

Section Handlers.

(** The C library's [pow], which [**] calls. *)
Variable libm_pow : float -> float -> float.

(** The built-in [float] applied to the text of an entry. *)
Variable py_float : string -> result float.

(** The body of the [try] of both calculate handlers. *)
Definition compute_inputs (g : gui) : result (float * float * float * string) :=
  weight <- py_float (weight_var g) ;;
  height <- py_float (height_var g) ;;
  bmi <- calculate_bmi libm_pow weight height ;;
  Ok (weight, height, bmi, bmi_category bmi).

(** [on_calculate_only], lines 254-263. *)
Definition on_calculate_only (d : db) (g : gui) : outcome :=
  match compute_inputs g with
  | Ok (_, _, bmi, cat) =>
      mk_outcome d (set_result g ("BMI: " ++ format_2f bmi) ("Category: " ++ cat)) [] None
  | Raise e =>
      mk_outcome d g [ShowError "Input error" ("Invalid input: " ++ exn_text e)] None
  end.

(** [on_calculate_and_save], lines 265-292; [now] is the clock reading
    [save_record] takes. *)
Definition on_calculate_and_save (now : string) (d : db) (g : gui) : outcome :=
  let name := strip (name_var g) in
  if String.eqb name "" then
    mk_outcome d g [ShowWarning "Missing name" "Please enter a user name."] None
  else
    match compute_inputs g with
    | Raise e =>
        mk_outcome d g [ShowError "Input error" ("Invalid input: " ++ exn_text e)] None
    | Ok (weight, height, bmi, cat) =>
        match get_or_create_user name d with
        | (None, d1) =>
            mk_outcome d1 g [ShowError "User error" "Could not create or find user."] None
        | (Some uid, d1) =>
            match save_record now uid weight height bmi cat d1 with
            | Raise e => mk_outcome d1 g [] (Some e)
            | Ok d2 =>
                let g := set_result g ("BMI: " ++ format_2f bmi) ("Category: " ++ cat) in
                let saved := ShowInfo "Saved"
                  ("Saved record for " ++ name ++ " (BMI " ++ format_2f bmi ++ ", "
                   ++ cat ++ ").") in
                let g := refresh_users_dropdown d2 g in
                let g := if String.eqb (user_combo_var g) name
                         then on_user_selected d2 g else g in
                mk_outcome d2 g [saved] None
            end
        end
    end.

End Handlers.


(** ** CSV export *)

Module Csv.

(** A value handed to [writer.writerow]. *)
Inductive cell : Type :=
| CStr (s : string)
| CFloat (x : float).

Definition needs_quotes (s : string) : bool :=
  contains "," s || contains "034" s || contains "013" s || contains "010" s.

Fixpoint double_quotes (s : string) : string :=
  match s with
  | "" => ""
  | String c r =>
      (if Ascii.eqb c "034" then String c (String c "") else String c "")
      ++ double_quotes r
  end.

(** A field as the default dialect writes it: quoted when it holds the
    delimiter, a quote or a line break, quotes inside doubled. *)
Definition field (s : string) : string :=
  if needs_quotes s then String "034" (double_quotes s ++ String "034" "") else s.

Definition line_terminator : string := String "013" (String "010" "").

Section Writer.

(** [str] of a float, which the writer applies to a cell that is not a
    string. *)
Variable str_float : float -> string.

Definition cell_text (c : cell) : string :=
  match c with
  | CStr s => s
  | CFloat x => str_float x
  end.

(** [writer.writerow(row)] *)
Definition writerow (row : list cell) : string :=
  String.concat "," (map (fun c => field (cell_text c)) row) ++ line_terminator.

End Writer.

End Csv.
Import Csv.

(** A file system: the files written, newest first. *)
Definition files : Type := list (string * string).

(** What the world answers to [export_history_csv]: whether [pandas] was
    importable, the path chosen in the save dialog (empty when the dialog
    is cancelled) and the error of the operating system, if the file
    cannot be written. *)
Record export_env : Type := mk_export_env {
  pandas_available : bool;
  chosen_path : string;
  os_error : option exn
}.

Definition export_header : list cell :=
  [CStr "date"; CStr "weight_kg"; CStr "height_m"; CStr "bmi"; CStr "category"].

Definition export_row (r : history_row) : list cell :=
  [CStr (h_date r); CFloat (h_weight_kg r); CFloat (h_height_m r);
   CFloat (h_bmi r); CStr (h_category r)].

(** The header line and a data line of the [csv] module branch. *)
Definition header_line : string :=
  "date,weight_kg,height_m,bmi,category" ++ line_terminator.

Definition data_line (str_float : float -> string) (r : history_row) : string :=
  String.concat "," [field (h_date r); field (str_float (h_weight_kg r));
                     field (str_float (h_height_m r)); field (str_float (h_bmi r));
                     field (h_category r)] ++ line_terminator.

Section ExportHistory.

Variable str_float : float -> string.

(** [pd.DataFrame(recs).to_csv(path, index=False)]: the text [pandas]
    writes for a list of dicts. *)
Variable dataframe_to_csv : list history_row -> string.

(** The text the [csv] module branch writes, lines 407-412. *)
Definition csv_text (recs : list history_row) : string :=
  writerow str_float export_header
  ++ String.concat "" (map (fun r => writerow str_float (export_row r)) recs).

(** [export_history_csv], lines 374-415. *)
Definition export_history_csv (env : export_env) (fs : files) (d : db) (g : gui)
    : files * list dialog :=
  let name := strip (user_combo_var g) in
  if String.eqb name "" then
    (fs, [ShowWarning "No user selected" "Select a user to export their history."])
  else
    match find_user_id name d with
    | None => (fs, [ShowError "Error" "User not found."])
    | Some uid =>
        match fetch_all_records_for_user_as_dicts uid d with
        | [] => (fs, [ShowInfo "No records" "This user has no records to export."])
        | recs =>
            let path := chosen_path env in
            if String.eqb path "" then (fs, [])
            else
              match os_error env with
              | Some e =>
                  (fs, [ShowError "Export error" ("Could not export CSV: " ++ exn_text e)])
              | None =>
                  let text := if pandas_available env then dataframe_to_csv recs
                              else csv_text recs in
                  ((path, text) :: fs,
                   [ShowInfo "Exported" ("History exported to: " ++ path)])
              end
        end
    end.

End ExportHistory.

(** ** Sample runs *)

(** Concrete inputs: the window as [__init__] leaves it, entries typed
    into it, and the runs the examples below evaluate. *)
Module Sample.

Definition w70 : float := float_of_int 70.
Definition h1_75 : float := float_of_scaled 7 (-2).
Definition h_tiny : float := Text.float_of_decimal false 1 (-200).
Definition h_huge : float := Text.float_of_decimal false 1 200.
Definition h1_6598 : float := Text.float_of_decimal false 16598 (-4).

Definition window : gui :=
  mk_gui "" "" "" "BMI: N/A" "Category: N/A" "" [] []
         "Mean BMI: N/A" "Min BMI: N/A" "Max BMI: N/A" (mk_plot "No user selected" []).
Definition typed (name weight height : string) (g : gui) : gui :=
  mk_gui name weight height (result_str g) (cat_str g)
         (user_combo_var g) (user_combo_values g) (tree g)
         (stat_mean g) (stat_min g) (stat_max g) (ax g).

Definition clock1 : string := "2026-01-01T10:00:00".
Definition clock2 : string := "2026-02-01T10:00:00".
Definition first_save : outcome :=
  on_calculate_and_save pow_sample Parse.float_of_str clock1 empty_db
    (typed "Ann" "70" "1.75" window).
Definition second_save : outcome :=
  on_calculate_and_save pow_sample Parse.float_of_str clock2 (out_db first_save)
    (typed " Ann " "72" "1.75" (out_gui first_save)).
Definition negative_save : outcome :=
  on_calculate_and_save pow_sample Parse.float_of_str clock1 empty_db
    (typed "Ann" "-5" "1.75" window).
Definition ann_selected : gui :=
  on_user_selected (out_db first_save)
    (set_combo (out_gui first_save) "Ann" (user_combo_values (out_gui first_save))).
Definition to_disk : export_env := mk_export_env false "Ann_bmi_history.csv" None.
Definition no_pandas (recs : list history_row) : string := "".
Definition bmi_list : list float := [float_of_int 18; float_of_int 22; float_of_int 30].

End Sample.

Import Sample.

(** ** Invariant and orders *)

(** The invariant of the database file: names and ids of users are
    pairwise distinct, ids lie below the AUTOINCREMENT counter, names are
    stripped and not empty, every record belongs to a user and carries
    the BMI and the band of its own weight and height. *)
Definition db_wf (libm_pow : float -> float -> float) (d : db) : Prop :=
  NoDup (map user_name (users d)) /\
  NoDup (map user_id (users d)) /\
  Forall (fun u => 0 < user_id u <= users_seq d) (users d) /\
  Forall (fun u => user_name u <> "" /\ strip (user_name u) = user_name u) (users d) /\
  NoDup (map rec_id (records d)) /\
  Forall (fun r => 0 < rec_id r <= records_seq d) (records d) /\
  Forall (fun r => In (rec_user_id r) (map user_id (users d))) (records d) /\
  Forall (record_ok libm_pow) (records d) /\
  0 <= users_seq d /\ 0 <= records_seq d.

(** The order of the four bands. *)
Definition category_rank (c : string) : nat :=
  if String.eqb c "Underweight" then 0
  else if String.eqb c "Normal" then 1
  else if String.eqb c "Overweight" then 2
  else 3.

(** The order of [ORDER BY name COLLATE NOCASE] on user rows. *)
Definition name_leb (a b : user_row) : bool := nocase_leb (user_name a) (user_name b).

(** ** A session *)




(** The rows [populate_history_for_user] puts in the table. *)
Definition history_rows (uid : Z) (d : db) : list (list string) :=
  map (fun rec => [h_date rec; format_2f (h_weight_kg rec);
                   format_2f (h_height_m rec); format_2f (h_bmi rec);
                   h_category rec]) (fetch_records_for_user uid d).


Section Session.

Variable libm_pow : float -> float -> float.
Variable py_float : string -> result float.




End Session.

(** ** Tactics *)

(** Case analysis on every comparison of exponents and mantissas in the
    goal, for the order lemmas on floats. *)
Ltac order_cases :=
  repeat match goal with
  | |- context [Z.compare ?a ?b] => destruct (Z.compare_spec a b)
  | |- context [Pos.compare_cont Eq ?a ?b] =>
      change (Pos.compare_cont Eq a b) with (Pos.compare a b);
      destruct (Pos.compare_spec a b)
  | H : context [Z.compare ?a ?b] |- _ => destruct (Z.compare_spec a b)
  | H : context [Pos.compare_cont Eq ?a ?b] |- _ =>
      change (Pos.compare_cont Eq a b) with (Pos.compare a b) in H;
      destruct (Pos.compare_spec a b)
  end.

(** * Properties *)

(** ** Float comparisons *)

Lemma SFcompare_antisym (x y : float) (c : comparison) :
  SFcompare x y = Some c -> SFcompare y x = Some (CompOpp c).
Proof.
  destruct x as [sx|sx| |sx mx ex], y as [sy|sy| |sy my ey]; simpl;
    try discriminate;
    try (intros [= <-]; try destruct sx; try destruct sy; reflexivity).
  intros [= <-]. f_equal.
  pose proof (Pos.compare_cont_antisym mx my Eq) as Hm. simpl in Hm.
  change (PosDef.Pos.compare_cont Eq my mx) with (Pos.compare_cont Eq my mx).
  change (PosDef.Pos.compare_cont Eq mx my) with (Pos.compare_cont Eq mx my).
  rewrite <- Hm.
  destruct sx, sy; try reflexivity;
    rewrite (Z.compare_antisym ex ey);
    destruct (ex ?= ey); simpl; try reflexivity.
Qed.

Lemma flt_fle_asym (a b : float) : flt a b = true -> fle b a = false.
Proof.
  unfold flt, fle, SFltb, SFleb. intros H.
  destruct (SFcompare a b) as [[ | | ]|] eqn:E; try discriminate.
  rewrite (SFcompare_antisym _ _ _ E). reflexivity.
Qed.

Lemma fle_flt_asym (a b : float) : fle a b = true -> flt b a = false.
Proof.
  unfold flt, fle, SFltb, SFleb. intros H.
  destruct (SFcompare a b) as [[ | | ]|] eqn:E; try discriminate;
    rewrite (SFcompare_antisym _ _ _ E); reflexivity.
Qed.

Lemma SFcompare_none (a b : float) :
  SFcompare a b = None -> is_nan a = true \/ is_nan b = true.
Proof.
  destruct a, b; simpl; try discriminate; auto.
Qed.

Lemma fle_false_gt (a b : float) :
  is_nan a = false -> is_nan b = false -> fle a b = false -> flt b a = true.
Proof.
  unfold flt, fle, SFltb, SFleb. intros Ha Hb H.
  destruct (SFcompare a b) as [[ | | ]|] eqn:E; try discriminate.
  - rewrite (SFcompare_antisym _ _ _ E). reflexivity.
  - destruct (SFcompare_none _ _ E); congruence.
Qed.

Lemma pos_compare_cont_refl (m : positive) : Pos.compare_cont Eq m m = Eq.
Proof. exact (Pos.compare_refl m). Qed.

Lemma feq_refl (x : float) : is_nan x = false -> feq x x = true.
Proof.
  unfold feq, SFeqb. destruct x as [s|s| |s m e]; simpl; try discriminate; intros _.
  - reflexivity.
  - destruct s; reflexivity.
  - change (PosDef.Pos.compare_cont Eq m m) with (Pos.compare_cont Eq m m).
    rewrite Z.compare_refl, pos_compare_cont_refl. destruct s; reflexivity.
Qed.


Lemma flt_fle_trans (a b c : float) :
  flt a b = true -> fle b c = true -> flt a c = true.
Proof.
  unfold flt, fle, SFltb, SFleb.
  destruct a as [sa|sa| |sa ma ea], b as [sb|sb| |sb mb eb], c as [sc|sc| |sc mc ec];
    simpl; try discriminate;
    try (destruct sa; try discriminate); try (destruct sb; try discriminate);
    try (destruct sc; try discriminate); try reflexivity;
    change PosDef.Pos.compare_cont with Pos.compare_cont in *;
    intros H1 H2; order_cases; simpl in *; subst;
    try discriminate; try reflexivity; try lia.
Qed.

Lemma fle_flt_trans (a b c : float) :
  fle a b = true -> flt b c = true -> flt a c = true.
Proof.
  unfold flt, fle, SFltb, SFleb.
  destruct a as [sa|sa| |sa ma ea], b as [sb|sb| |sb mb eb], c as [sc|sc| |sc mc ec];
    simpl; try discriminate;
    try (destruct sa; try discriminate); try (destruct sb; try discriminate);
    try (destruct sc; try discriminate); try reflexivity;
    change PosDef.Pos.compare_cont with Pos.compare_cont in *;
    intros H1 H2; order_cases; simpl in *; subst;
    try discriminate; try reflexivity; try lia.
Qed.



(** ** [calculate_bmi] *)

Lemma positive_not_le_zero (h : float) : flt lit_0 h = true -> fle h lit_0 = false.
Proof. apply flt_fle_asym. Qed.

Lemma float_truediv_cases (a b : float) :
  float_truediv a b =
    if is_zero b then Raise (mk_exn ZeroDivisionError "float division by zero")
    else Ok (fdiv a b).
Proof. reflexivity. Qed.

Lemma raises_not_returns {A : Type} (c : result A) (k : exn_kind) :
  raises c k -> ~ returns c.
Proof. intros [msg ->] [v Hv]. discriminate. Qed.

Section BmiFacts.

Variable libm_pow : float -> float -> float.

(** [**] raises nothing but the overflow of a finite base. *)
Lemma float_pow2_raise (h : float) (e : exn) :
  float_pow2 libm_pow h = Raise e ->
  e = mk_exn OverflowError "(34, 'Numerical result out of range')" /\
  pow2_overflows libm_pow h = true.
Proof.
  unfold pow2_overflows. destruct h as [s|s| |s m x]; try discriminate.
  intros H. rewrite H. split; [|reflexivity].
  unfold float_pow2 in H. destruct (feq _ one); [discriminate|].
  destruct (libm_pow _ two); try discriminate. injection H as <-. reflexivity.
Qed.

(** When [**] returns for a positive height, nothing overflowed, and the
    square underflowed exactly when the value is a zero. *)
Lemma float_pow2_ok (h sq : float) :
  flt lit_0 h = true ->
  float_pow2 libm_pow h = Ok sq ->
  pow2_overflows libm_pow h = false /\ pow2_underflows libm_pow h = is_zero sq.
Proof.
  unfold pow2_overflows, pow2_underflows.
  destruct h as [s|s| |s m x]; try discriminate.
  - destruct s; [discriminate|]. intros _ [= <-]. split; reflexivity.
  - intros _ H. rewrite H. split; [reflexivity|]. destruct sq; reflexivity.
Qed.

(** The value of [height ** 2] for a finite positive height other than
    1.0 is the value of the C library's [pow]. *)
Lemma float_pow2_libm (h sq : float) :
  flt lit_0 h = true -> is_finite h = true -> feq h one = false ->
  float_pow2 libm_pow h = Ok sq -> sq = libm_pow h two.
Proof.
  destruct h as [s|s| |s m x]; try discriminate.
  destruct s; [discriminate|]. intros _ _ H1. unfold float_pow2.
  cbn [SFabs]. rewrite H1.
  destruct (libm_pow (S754_finite false m x) two); try discriminate;
    intros [= <-]; reflexivity.
Qed.

Lemma calculate_bmi_positive (w h : float) :
  flt lit_0 h = true ->
  calculate_bmi libm_pow w h =
    match float_pow2 libm_pow h with
    | Raise e => Raise e
    | Ok sq =>
        if is_zero sq then Raise (mk_exn ZeroDivisionError "float division by zero")
        else Ok (fdiv w sq)
    end.
Proof.
  intros Hpos. unfold calculate_bmi. rewrite (positive_not_le_zero h Hpos).
  destruct (float_pow2 libm_pow h) as [sq|e]; [|reflexivity].
  cbn [bind]. rewrite float_truediv_cases. destruct (is_zero sq); reflexivity.
Qed.

(** C1, as amended: for every weight and every height greater than zero
    whose square neither underflows to zero nor overflows,
    [height ** 2] has a value [sq], which is not zero and is what the C
    library's [pow] returns unless the height is infinite or 1.0, and
    [calculate_bmi weight height] returns [weight / sq], the quotient
    rounded as binary64 rounds. *)
Theorem calculate_bmi_in_range (w h : float) :
  flt lit_0 h = true ->
  pow2_underflows libm_pow h = false ->
  pow2_overflows libm_pow h = false ->
  exists sq,
    float_pow2 libm_pow h = Ok sq /\
    is_zero sq = false /\
    calculate_bmi libm_pow w h = Ok (fdiv w sq) /\
    (is_finite h = true -> feq h one = false -> sq = libm_pow h two).
Proof.
  intros Hpos Hu Ho. pose proof (calculate_bmi_positive w h Hpos) as C.
  destruct (float_pow2 libm_pow h) as [sq|e] eqn:P.
  - destruct (float_pow2_ok h sq Hpos P) as [_ Hz]. rewrite Hu in Hz.
    exists sq. rewrite <- Hz in C. repeat split; auto.
    intros Hf H1. exact (float_pow2_libm h sq Hpos Hf H1 P).
  - destruct (float_pow2_raise h e P) as [_ Ho']. congruence.
Qed.

Lemma calculate_bmi_value_error (w h : float) :
  raises (calculate_bmi libm_pow w h) ValueError <-> fle h lit_0 = true.
Proof.
  split.
  - destruct (fle h lit_0) eqn:Hle; [reflexivity|].
    intros [msg Hr]. exfalso.
    assert (Hpos : flt lit_0 h = true \/ is_nan h = true).
    { destruct h as [s|s| |s m e]; auto; left; apply fle_false_gt; auto. }
    destruct Hpos as [Hpos|Hnan].
    + rewrite (calculate_bmi_positive w h Hpos) in Hr.
      destruct (float_pow2 libm_pow h) as [sq|e] eqn:P.
      * destruct (is_zero sq); discriminate.
      * destruct (float_pow2_raise h e P) as [-> _]. discriminate.
    + destruct h; discriminate.
  - unfold calculate_bmi. intros ->. eexists. reflexivity.
Qed.

(** C3, as amended: [calculate_bmi] fails with the input-validation error
    ([ValueError]) if and only if [height <= 0]; a zero or negative height
    fails so for every weight; a call with [height > 0] never raises the
    validation error, and it fails at all only when the square of the
    height underflows to zero ([ZeroDivisionError]) or overflows
    ([OverflowError]). *)
Theorem calculate_bmi_failures (w h : float) :
  (raises (calculate_bmi libm_pow w h) ValueError <-> fle h lit_0 = true) /\
  (is_zero h = true -> raises (calculate_bmi libm_pow w h) ValueError) /\
  (flt h lit_0 = true -> raises (calculate_bmi libm_pow w h) ValueError) /\
  (flt lit_0 h = true ->
     (pow2_underflows libm_pow h = false /\ pow2_overflows libm_pow h = false /\
      returns (calculate_bmi libm_pow w h)) \/
     (pow2_underflows libm_pow h = true /\
      raises (calculate_bmi libm_pow w h) ZeroDivisionError) \/
     (pow2_overflows libm_pow h = true /\
      raises (calculate_bmi libm_pow w h) OverflowError)).
Proof.
  split; [apply calculate_bmi_value_error|]. split; [|split].
  - intros Hz. apply calculate_bmi_value_error.
    destruct h as [s|s| |s m e]; try discriminate. reflexivity.
  - intros Hlt. apply calculate_bmi_value_error.
    unfold flt, fle, SFltb, SFleb in *.
    destruct (SFcompare h lit_0) as [[ | | ]|]; try discriminate. reflexivity.
  - intros Hpos. rewrite (calculate_bmi_positive w h Hpos).
    destruct (float_pow2 libm_pow h) as [sq|e] eqn:P.
    + destruct (float_pow2_ok h sq Hpos P) as [Ho Hu]. rewrite Ho, Hu.
      destruct (is_zero sq).
      * right; left. split; [reflexivity|]. eexists; reflexivity.
      * left. repeat split. eexists; reflexivity.
    + destruct (float_pow2_raise h e P) as [-> Ho]. rewrite Ho.
      right; right. split; [reflexivity|]. eexists; reflexivity.
Qed.

(** [calculate_bmi] when it returns: the height was not [<= 0],
    [height ** 2] has a value that is not zero, and the result is the
    weight over it. *)
Lemma calculate_bmi_ok (w h b : float) :
  calculate_bmi libm_pow w h = Ok b ->
  fle h lit_0 = false /\
  exists sq, float_pow2 libm_pow h = Ok sq /\ is_zero sq = false /\ b = fdiv w sq.
Proof.
  unfold calculate_bmi. destruct (fle h lit_0) eqn:Hle; [discriminate|].
  destruct (float_pow2 libm_pow h) as [sq|e]; [|discriminate].
  cbn [bind]. rewrite float_truediv_cases.
  destruct (is_zero sq) eqn:Hz; [discriminate|]. cbn [bind].
  intros [= <-]. split; [reflexivity|]. exists sq. auto.
Qed.

End BmiFacts.

(** The hypotheses of [calculate_bmi_in_range] hold at 70 kg and 1.75 m,
    where the square, 3.0625, is a double. *)
Lemma calculate_bmi_in_range_witness :
  flt lit_0 h1_75 = true /\
  exists sq,
    float_pow2 pow_sample h1_75 = Ok sq /\
    is_zero sq = false /\
    calculate_bmi pow_sample w70 h1_75 = Ok (fdiv w70 sq) /\
    (is_finite h1_75 = true -> feq h1_75 one = false -> sq = pow_sample h1_75 two).
Proof.
  split; [reflexivity|].
  apply (calculate_bmi_in_range pow_sample w70 h1_75); vm_compute; reflexivity.
Defined.

(** C1 fails as stated: the height [1e-200] is greater than zero, its
    square underflows to [0.0], and [calculate_bmi 70 1e-200] raises
    [ZeroDivisionError] where the claim has it return a value. *)
Lemma calculate_bmi_tiny_height :
  flt lit_0 h_tiny = true /\
  calculate_bmi pow_sample w70 h_tiny
    = Raise (mk_exn ZeroDivisionError "float division by zero") /\
  ~ returns (calculate_bmi pow_sample w70 h_tiny).
Proof.
  assert (E : calculate_bmi pow_sample w70 h_tiny
              = Raise (mk_exn ZeroDivisionError "float division by zero"))
    by (vm_compute; reflexivity).
  split; [vm_compute; reflexivity|]. split; [exact E|].
  intros [v Hv]. rewrite E in Hv. discriminate.
Qed.

(** Where [pow] does not round correctly the model follows it: with the
    value glibc's [pow] has at 1.6598, one unit in the last place above the
    rounded product, [calculate_bmi 70 1.6598] is 25.40893835052519, the
    double below the quotient by the product. *)
Lemma calculate_bmi_follows_pow (libm_pow : float -> float -> float) :
  libm_pow h1_6598 two = S754_finite false 6203564461586775 (-51) ->
  fmul h1_6598 h1_6598 = S754_finite false 6203564461586774 (-51) /\
  calculate_bmi libm_pow w70 h1_6598 = Ok (S754_finite false 7151980330456572 (-48)) /\
  fdiv w70 (fmul h1_6598 h1_6598) = S754_finite false 7151980330456573 (-48).
Proof.
  intros H. split; [vm_compute; reflexivity|]. split; [|vm_compute; reflexivity].
  rewrite (calculate_bmi_positive libm_pow w70 h1_6598 eq_refl).
  assert (P : float_pow2 libm_pow h1_6598 = Ok (S754_finite false 6203564461586775 (-51))).
  { unfold float_pow2. replace h1_6598 with (S754_finite false 7475074661509549 (-52)) in *
      by (vm_compute; reflexivity).
    cbn [SFabs]. replace (feq (S754_finite false 7475074661509549 (-52)) one) with false
      by (vm_compute; reflexivity).
    rewrite H. reflexivity. }
  rewrite P. vm_compute. reflexivity.
Qed.

(** C3 fails as stated: the height [1e200] is greater than zero and the
    call fails, with [OverflowError] from the square. *)
Lemma calculate_bmi_huge_height :
  flt lit_0 h_huge = true /\
  fle h_huge lit_0 = false /\
  calculate_bmi pow_sample w70 h_huge
    = Raise (mk_exn OverflowError "(34, 'Numerical result out of range')").
Proof. repeat split; vm_compute; reflexivity. Qed.

(** ** [bmi_category] *)

Lemma flt_false_ge (a b : float) :
  is_nan a = false -> is_nan b = false -> flt a b = false -> fle b a = true.
Proof.
  intros Ha Hb H. destruct (fle b a) eqn:E; [reflexivity|].
  rewrite (fle_false_gt b a Hb Ha E) in H. discriminate.
Qed.

Lemma flt_not_nan (a b : float) : flt a b = true -> is_nan a = false /\ is_nan b = false.
Proof. destruct a, b; try discriminate; auto. Qed.

Lemma fle_not_nan (a b : float) : fle a b = true -> is_nan a = false /\ is_nan b = false.
Proof. destruct a, b; try discriminate; auto. Qed.

Lemma below_lower_band (bmi lo hi : float) :
  fle lo hi = true -> fle hi bmi = true -> flt bmi lo = false.
Proof.
  intros Hc Hge. destruct (flt bmi lo) eqn:E; [|reflexivity].
  pose proof (flt_fle_trans bmi lo hi E Hc) as H.
  rewrite (fle_flt_asym hi bmi Hge) in H. discriminate.
Qed.

Lemma bmi_category_refines (bmi : float) : bmi_category bmi = categorize_spec bmi.
Proof.
  unfold bmi_category, categorize_spec.
  destruct (flt bmi lit_18_5) eqn:H1; [reflexivity|].
  destruct (flt bmi lit_25_0) eqn:H2.
  - destruct (flt_not_nan _ _ H2) as [Hn _].
    rewrite (flt_false_ge bmi lit_18_5 Hn eq_refl H1). reflexivity.
  - rewrite andb_false_r.
    destruct (flt bmi lit_30_0) eqn:H3; [|rewrite andb_false_r; reflexivity].
    destruct (flt_not_nan _ _ H3) as [Hn _].
    rewrite (flt_false_ge bmi lit_25_0 Hn eq_refl H2). reflexivity.
Qed.

(** C2: for every BMI, [bmi_category] (the specification's [categorize])
    is the function the specification words band by band; it returns
    Underweight below 18.5, Normal from 18.5 up to but not 25.0, Overweight
    from 25.0 up to but not 30.0, and Obese otherwise, that is from 30.0 on
    and for a NaN; each band is lower-inclusive: 18.5 is Normal, 25.0 is
    Overweight and 30.0 is Obese. *)
Theorem bmi_category_bands (bmi : float) :
  bmi_category bmi = categorize_spec bmi /\
  (flt bmi lit_18_5 = true -> bmi_category bmi = "Underweight") /\
  (fle lit_18_5 bmi = true -> flt bmi lit_25_0 = true -> bmi_category bmi = "Normal") /\
  (fle lit_25_0 bmi = true -> flt bmi lit_30_0 = true -> bmi_category bmi = "Overweight") /\
  (fle lit_30_0 bmi = true -> bmi_category bmi = "Obese") /\
  (is_nan bmi = true -> bmi_category bmi = "Obese") /\
  bmi_category lit_18_5 = "Normal" /\
  bmi_category lit_25_0 = "Overweight" /\
  bmi_category lit_30_0 = "Obese".
Proof.
  split; [apply bmi_category_refines|].
  unfold bmi_category. repeat split.
  - intros ->. reflexivity.
  - intros Hlo Hhi. rewrite (fle_flt_asym _ _ Hlo), Hhi. reflexivity.
  - intros Hlo Hhi.
    rewrite (below_lower_band bmi lit_18_5 lit_25_0 eq_refl Hlo).
    rewrite (fle_flt_asym _ _ Hlo), Hhi. reflexivity.
  - intros Hlo.
    rewrite (below_lower_band bmi lit_18_5 lit_30_0 eq_refl Hlo).
    rewrite (below_lower_band bmi lit_25_0 lit_30_0 eq_refl Hlo).
    rewrite (fle_flt_asym _ _ Hlo). reflexivity.
  - destruct bmi; try discriminate. reflexivity.
Qed.


(** ** Stripping *)


Lemma lstrip_blank (s : string) : blank s = true -> lstrip s = "".
Proof.
  induction s as [|c r IH]; simpl; [reflexivity|].
  intros H. apply andb_prop in H as [-> Hr]. auto.
Qed.

Lemma strip_blank (s : string) : blank s = true -> strip s = "".
Proof. intros H. unfold strip. rewrite (lstrip_blank s H). reflexivity. Qed.

Lemma rstrip_empty_blank (s : string) : rstrip s = "" -> blank s = true.
Proof.
  induction s as [|c r IH]; simpl; [reflexivity|].
  destruct (rstrip r) eqn:E; [|discriminate].
  destruct (isspace c); [|discriminate]. intros _. simpl. auto.
Qed.

Lemma lstrip_empty_blank (s : string) : blank (lstrip s) = true -> blank s = true.
Proof.
  induction s as [|c r IH]; simpl; [reflexivity|].
  destruct (isspace c) eqn:E; simpl; [auto|].
  rewrite E. discriminate.
Qed.

Lemma strip_empty_iff (s : string) : strip s = "" <-> blank s = true.
Proof.
  split; [|apply strip_blank].
  unfold strip. intros H. apply lstrip_empty_blank, rstrip_empty_blank, H.
Qed.


Lemma lstrip_no_leading_space (s : string) : no_leading_space (lstrip s).
Proof.
  induction s as [|c r IH]; simpl; [exact I|].
  destruct (isspace c) eqn:E; [exact IH|exact E].
Qed.

Lemma rstrip_no_leading_space (s : string) :
  no_leading_space s -> no_leading_space (rstrip s).
Proof.
  destruct s as [|c r]; simpl; [auto|]. intros E.
  destruct (rstrip r); [rewrite E|]; exact E.
Qed.

Lemma lstrip_id (s : string) : no_leading_space s -> lstrip s = s.
Proof. destruct s as [|c r]; simpl; [auto|]. intros ->. reflexivity. Qed.

Lemma rstrip_idem (s : string) : rstrip (rstrip s) = rstrip s.
Proof.
  induction s as [|c r IH]; simpl; [reflexivity|].
  destruct (rstrip r) as [|c' r'] eqn:E.
  - destruct (isspace c) eqn:Ec; simpl; [reflexivity|]. rewrite Ec. reflexivity.
  - change (rstrip (String c (String c' r'))) with
      (match rstrip (String c' r') with
       | "" => if isspace c then "" else String c ""
       | r0 => String c r0
       end).
    rewrite IH. reflexivity.
Qed.

Lemma strip_idem (s : string) : strip (strip s) = strip s.
Proof.
  unfold strip.
  rewrite (lstrip_id (rstrip (lstrip s))).
  - apply rstrip_idem.
  - apply rstrip_no_leading_space, lstrip_no_leading_space.
Qed.



(** ** The database helpers *)

Lemma find_none_existsb {A : Type} (f : A -> bool) (l : list A) :
  find f l = None <-> existsb f l = false.
Proof.
  induction l as [|a l IH]; simpl; [tauto|].
  destruct (f a); simpl; [split; discriminate|exact IH].
Qed.

Lemma find_app_none {A : Type} (f : A -> bool) (l1 l2 : list A) :
  find f l1 = None -> find f (l1 ++ l2) = find f l2.
Proof.
  induction l1 as [|a l IH]; simpl; [reflexivity|].
  destruct (f a); [discriminate|exact IH].
Qed.

Lemma get_or_create_user_blank (name : string) (d : db) :
  blank name = true -> get_or_create_user name d = (None, d).
Proof.
  intros H. unfold get_or_create_user. rewrite (strip_blank name H). reflexivity.
Qed.

Lemma get_or_create_user_new (name : string) (d : db) :
  strip name <> "" -> has_user (strip name) d = false ->
  get_or_create_user name d =
    (Some (users_seq d + 1),
     mk_db (users d ++ [mk_user (users_seq d + 1) (strip name)]) (records d)
           (users_seq d + 1) (records_seq d)).
Proof.
  intros Hne Hnew. unfold get_or_create_user.
  destruct (String.eqb_spec (strip name) "") as [E|_]; [contradiction|].
  apply find_none_existsb in Hnew. unfold has_user in Hnew. rewrite Hnew. reflexivity.
Qed.

Lemma get_or_create_user_known (name : string) (d : db) :
  strip name <> "" -> has_user (strip name) d = true ->
  exists uid, get_or_create_user name d = (Some uid, d) /\
              In (mk_user uid (strip name)) (users d).
Proof.
  intros Hne Hk. unfold get_or_create_user.
  destruct (String.eqb_spec (strip name) "") as [E|_]; [contradiction|].
  destruct (find _ (users d)) as [[uid nm]|] eqn:F.
  - exists uid. split; [reflexivity|].
    destruct (find_some _ _ F) as [Hin Heq]. simpl in Heq.
    apply String.eqb_eq in Heq. subst nm. exact Hin.
  - apply find_none_existsb in F. unfold has_user in Hk. congruence.
Qed.

Lemma has_user_after_insert (name : string) (d : db) (uid seq : Z) :
  has_user name (mk_db (users d ++ [mk_user uid name]) (records d) seq (records_seq d)) = true.
Proof.
  unfold has_user. simpl. rewrite existsb_app. simpl.
  rewrite String.eqb_refl. apply orb_true_iff. right. reflexivity.
Qed.

Lemma get_or_create_user_twice (name : string) (d : db) :
  strip name <> "" -> has_user (strip name) d = false ->
  forall name' uid d1,
    strip name' = strip name ->
    get_or_create_user name d = (Some uid, d1) ->
    get_or_create_user name' d1 = (Some uid, d1).
Proof.
  intros Hne Hnew name' uid d1 Hsame H.
  rewrite (get_or_create_user_new name d Hne Hnew) in H. injection H as <- <-.
  unfold get_or_create_user. rewrite Hsame.
  destruct (String.eqb_spec (strip name) "") as [E|_]; [contradiction|].
  simpl users. apply find_none_existsb in Hnew. unfold has_user.
  rewrite (find_app_none _ _ _ Hnew). simpl. rewrite String.eqb_refl. reflexivity.
Qed.

Lemma get_or_create_user_records (name : string) (d : db) :
  records (snd (get_or_create_user name d)) = records d.
Proof.
  unfold get_or_create_user.
  destruct (String.eqb (strip name) ""); [reflexivity|].
  destruct (find _ (users d)); reflexivity.
Qed.

Lemma save_record_ok (now : string) (uid : Z) (w h b : float) (cat : string) (d d' : db) :
  save_record now uid w h b cat d = Ok d' ->
  exists w' h' b',
    sqlite_real w = Some w' /\ sqlite_real h = Some h' /\ sqlite_real b = Some b' /\
    d' = mk_db (users d) (records d ++ [mk_record (records_seq d + 1) uid now w' h' b' cat])
               (users_seq d) (records_seq d + 1).
Proof.
  unfold save_record.
  destruct (sqlite_real w) as [w'|]; [|discriminate].
  destruct (sqlite_real h) as [h'|]; [|discriminate].
  destruct (sqlite_real b) as [b'|]; [|discriminate].
  intros [= <-]. exists w', h', b'. auto.
Qed.

Lemma save_record_raises (now : string) (uid : Z) (w h b : float) (cat : string) (d : db) (e : exn) :
  save_record now uid w h b cat d = Raise e ->
  exn_class e = IntegrityError /\
  (is_nan w = true \/ is_nan h = true \/ is_nan b = true).
Proof.
  unfold save_record.
  destruct w, h, b; simpl; try discriminate; intros [= <-]; auto.
Qed.

(** ** What SQLite keeps of a float *)

Lemma sqlite_real_feq (x x' : float) : sqlite_real x = Some x' -> feq x' x = true.
Proof.
  destruct x as [s|s| |s m e]; simpl; try discriminate; intros [= <-].
  - reflexivity.
  - apply feq_refl. reflexivity.
  - apply feq_refl. reflexivity.
Qed.

Lemma sqlite_real_nonzero (x x' : float) :
  sqlite_real x = Some x' -> is_zero x = false -> x' = x.
Proof. destruct x; simpl; try discriminate; intros [= <-]; reflexivity. Qed.

Lemma sqlite_real_not_nan (x x' : float) : sqlite_real x = Some x' -> is_nan x' = false.
Proof. destruct x; simpl; try discriminate; intros [= <-]; reflexivity. Qed.

Lemma bmi_category_sqlite (b b' : float) :
  sqlite_real b = Some b' -> bmi_category b' = bmi_category b.
Proof. destruct b as [[|]| | |]; simpl; try discriminate; intros [= <-]; reflexivity. Qed.

Lemma fdiv_zero_numerator (s : bool) (q : float) :
  is_zero q = false -> is_nan q = false -> exists s', fdiv (S754_zero s) q = S754_zero s'.
Proof.
  destruct q as [t|t| |t m e]; simpl; try discriminate; intros _ _; eexists; reflexivity.
Qed.

Lemma fdiv_nan_denominator (x : float) : fdiv x S754_nan = S754_nan.
Proof. destruct x; reflexivity. Qed.

(** The stored BMI equals, as floats compare, the quotient of the stored
    weight by the square of the stored height. *)
Lemma stored_bmi_feq (w w' q b' : float) :
  is_zero q = false ->
  sqlite_real w = Some w' ->
  sqlite_real (fdiv w q) = Some b' ->
  feq b' (fdiv w' q) = true.
Proof.
  intros Hq Hw Hb.
  destruct (is_zero w) eqn:Hz.
  - destruct w as [s| | |]; try discriminate. injection Hw as <-.
    destruct (is_nan q) eqn:Hn.
    + destruct q; discriminate.
    + destruct (fdiv_zero_numerator s q Hq Hn) as [s1 E1].
      destruct (fdiv_zero_numerator false q Hq Hn) as [s2 E2].
      rewrite E1 in Hb. rewrite E2. injection Hb as <-. reflexivity.
  - rewrite (sqlite_real_nonzero w w' Hw Hz). apply sqlite_real_feq, Hb.
Qed.

(** ** The save action *)

Lemma get_or_create_user_none (name : string) (d d1 : db) :
  get_or_create_user name d = (None, d1) -> d1 = d.
Proof.
  unfold get_or_create_user.
  destruct (String.eqb (strip name) ""); [intros [= <-]; reflexivity|].
  destruct (find _ (users d)); discriminate.
Qed.

Lemma get_or_create_user_seq (name : string) (d : db) :
  records_seq (snd (get_or_create_user name d)) = records_seq d.
Proof.
  unfold get_or_create_user.
  destruct (String.eqb (strip name) ""); [reflexivity|].
  destruct (find _ (users d)); reflexivity.
Qed.

Lemma get_or_create_user_id (name : string) (d d' : db) :
  users d = users d' -> users_seq d = users_seq d' ->
  fst (get_or_create_user name d) = fst (get_or_create_user name d').
Proof.
  intros Hu Hs. unfold get_or_create_user. rewrite Hu, Hs.
  destruct (String.eqb (strip name) ""); [reflexivity|].
  destruct (find _ (users d')); reflexivity.
Qed.

Section HandlerFacts.

Variable libm_pow : float -> float -> float.
Variable py_float : string -> result float.

Lemma compute_inputs_ok (g : gui) (w h b : float) (c : string) :
  compute_inputs libm_pow py_float g = Ok (w, h, b, c) ->
  py_float (weight_var g) = Ok w /\ py_float (height_var g) = Ok h /\
  calculate_bmi libm_pow w h = Ok b /\ c = bmi_category b.
Proof.
  unfold compute_inputs.
  destruct (py_float (weight_var g)) as [w0|]; [|discriminate].
  destruct (py_float (height_var g)) as [h0|]; [|discriminate].
  cbn [bind]. destruct (calculate_bmi libm_pow w0 h0) as [b0|] eqn:Hb; [|discriminate].
  cbn [bind]. intros [= <- <- <- <-]. repeat split. exact Hb.
Qed.

(** The two ways [on_calculate_and_save] ends: nothing is saved and the
    records are as before, or the inputs were accepted, the user row was
    found or made, and [save_record] added its row. *)
Lemma on_calculate_and_save_cases (now : string) (d : db) (g : gui) :
  let o := on_calculate_and_save libm_pow py_float now d g in
  (is_saved o = false /\ records (out_db o) = records d) \/
  (exists w h b uid d1,
     strip (name_var g) <> "" /\
     compute_inputs libm_pow py_float g = Ok (w, h, b, bmi_category b) /\
     get_or_create_user (strip (name_var g)) d = (Some uid, d1) /\
     save_record now uid w h b (bmi_category b) d1 = Ok (out_db o) /\
     is_saved o = true).
Proof.
  unfold on_calculate_and_save.
  destruct (String.eqb_spec (strip (name_var g)) "") as [E|Hne]; [left; auto|].
  destruct (compute_inputs libm_pow py_float g) as [[[[w h] b] c]|e] eqn:Hc; [|left; auto].
  destruct (compute_inputs_ok g w h b c Hc) as (_ & _ & _ & ->).
  destruct (get_or_create_user (strip (name_var g)) d) as [[uid|] d1] eqn:Hu.
  - pose proof (get_or_create_user_records (strip (name_var g)) d) as Hr.
    rewrite Hu in Hr. simpl in Hr.
    destruct (save_record now uid w h b (bmi_category b) d1) as [d2|e] eqn:Hs.
    + right. exists w, h, b, uid, d1. auto.
    + left. simpl. auto.
  - left. simpl. rewrite (get_or_create_user_none _ _ _ Hu). auto.
Qed.

(** The records after the handler are the records before it, followed by
    at most the one row made of the parsed inputs. *)
Lemma on_calculate_and_save_records (now : string) (d : db) (g : gui) :
  let o := on_calculate_and_save libm_pow py_float now d g in
  (is_saved o = false /\ records (out_db o) = records d) \/
  (exists w h b uid w' h' b',
     py_float (weight_var g) = Ok w /\ py_float (height_var g) = Ok h /\
     calculate_bmi libm_pow w h = Ok b /\
     sqlite_real w = Some w' /\ sqlite_real h = Some h' /\ sqlite_real b = Some b' /\
     records (out_db o) =
       (records d ++ [mk_record (records_seq d + 1) uid now w' h' b' (bmi_category b)])%list /\
     is_saved o = true).
Proof.
  intros o. destruct (on_calculate_and_save_cases now d g) as [H|H]; [left; exact H|].
  destruct H as (w & h & b & uid & d1 & Hne & Hc & Hu & Hs & Hsaved).
  destruct (compute_inputs_ok g w h b _ Hc) as (Hw & Hh & Hb & _).
  destruct (save_record_ok _ _ _ _ _ _ _ _ Hs) as (w' & h' & b' & Sw & Sh & Sb & Hd).
  right. exists w, h, b, uid, w', h', b'.
  repeat (split; [assumption|]). split; [|exact Hsaved].
  fold o in Hd. rewrite Hd. simpl.
  pose proof (get_or_create_user_records (strip (name_var g)) d) as Hr.
  pose proof (get_or_create_user_seq (strip (name_var g)) d) as Hq.
  rewrite Hu in Hr, Hq. simpl in Hr, Hq. rewrite Hr, Hq. reflexivity.
Qed.

Lemma stored_record_ok (now : string) (uid : Z) (w h b w' h' b' : float) (seq : Z) :
  calculate_bmi libm_pow w h = Ok b ->
  sqlite_real w = Some w' -> sqlite_real h = Some h' -> sqlite_real b = Some b' ->
  record_ok libm_pow (mk_record seq uid now w' h' b' (bmi_category b)).
Proof.
  intros Hb Sw Sh Sb.
  destruct (calculate_bmi_ok libm_pow w h b Hb) as (Hle & sq & Hsq & Hz & ->).
  assert (Hnz : is_zero h = false).
  { destruct h as [s| | |]; try reflexivity. destruct s; discriminate. }
  assert (Eh : h' = h) by exact (sqlite_real_nonzero h h' Sh Hnz). subst h'.
  assert (Hnan : is_nan h = false) by exact (sqlite_real_not_nan h h Sh).
  unfold record_ok. simpl.
  split; [exists sq; repeat split; auto; exact (stored_bmi_feq w w' sq b' Hz Sw Sb)|].
  split; [symmetry; exact (bmi_category_sqlite _ _ Sb)|].
  split; [rewrite <- bmi_category_refines; symmetry; exact (bmi_category_sqlite _ _ Sb)|].
  split; [exact Hle|]. apply fle_false_gt; auto.
Qed.

(** C4: the save action leaves the records it found and adds at most one;
    a record it adds satisfies [record_ok]: its [bmi] equals ([==] on
    floats) [weight / height ** 2], with the square the program's own [**]
    computes, its category is [bmi_category bmi],
    which is the band of the thresholds 18.5, 25.0 and 30.0, lower bound
    included, and its height is greater than zero.  When the height entry
    parses to a value [<= 0], no record is added and nothing is reported as
    saved. *)
Theorem saved_record_invariant (now : string) (d : db) (g : gui) :
  let o := on_calculate_and_save libm_pow py_float now d g in
  exists new,
    records (out_db o) = (records d ++ new)%list /\
    (List.length new <= 1)%nat /\
    Forall (record_ok libm_pow) new /\
    (forall h, py_float (height_var g) = Ok h -> fle h lit_0 = true ->
       new = [] /\ is_saved o = false).
Proof.
  intros o. destruct (on_calculate_and_save_records now d g) as [[Hn Hr]|H].
  - exists []. fold o in Hr. rewrite Hr, app_nil_r. repeat split; auto.
  - destruct H as (w & h & b & uid & w' & h' & b' & Hw & Hh & Hb & Sw & Sh & Sb & Hr & Hs).
    eexists. split; [exact Hr|]. split; [simpl; lia|]. split.
    + constructor; [|constructor]. exact (stored_record_ok _ _ _ _ _ _ _ _ _ Hb Sw Sh Sb).
    + intros h0 Hh0 Hle. rewrite Hh in Hh0. injection Hh0 as <-.
      destruct (calculate_bmi_ok libm_pow w h b Hb) as (Hle' & _). congruence.
Qed.

(** C7, as amended: a record the save action adds holds the weight the
    weight entry parses to, as SQLite keeps it; it is never a NaN, and it
    may be zero or negative: only the height is checked, and it is greater
    than zero. *)
Theorem saved_record_weight (now : string) (d : db) (g : gui) :
  let o := on_calculate_and_save libm_pow py_float now d g in
  exists new,
    records (out_db o) = (records d ++ new)%list /\
    Forall (fun r =>
      (exists w, py_float (weight_var g) = Ok w /\ sqlite_real w = Some (rec_weight_kg r)) /\
      is_nan (rec_weight_kg r) = false /\
      flt lit_0 (rec_height_m r) = true) new.
Proof.
  intros o. destruct (on_calculate_and_save_records now d g) as [[Hn Hr]|H].
  - exists []. fold o in Hr. rewrite Hr, app_nil_r. split; auto.
  - destruct H as (w & h & b & uid & w' & h' & b' & Hw & Hh & Hb & Sw & Sh & Sb & Hr & Hs).
    eexists. split; [exact Hr|]. constructor; [|constructor]. simpl.
    split; [exists w; auto|]. split; [exact (sqlite_real_not_nan w w' Sw)|].
    destruct (stored_record_ok now uid w h b w' h' b' 0 Hb Sw Sh Sb) as (_ & _ & _ & _ & H).
    exact H.
Qed.

(** C5: when the save action saves a record for a name that [users] does
    not have, [users] gains exactly one row, for that name, and [records]
    exactly one; a second save with the same name leaves [users] as it is,
    adds exactly one record, and both records carry the id of the one user
    row. *)
Theorem save_new_then_known_user (now1 now2 : string) (d : db) (g1 g2 : gui) :
  let o1 := on_calculate_and_save libm_pow py_float now1 d g1 in
  let o2 := on_calculate_and_save libm_pow py_float now2 (out_db o1) g2 in
  has_user (strip (name_var g1)) d = false ->
  strip (name_var g2) = strip (name_var g1) ->
  is_saved o1 = true ->
  is_saved o2 = true ->
  exists uid r1 r2,
    users (out_db o1) = (users d ++ [mk_user uid (strip (name_var g1))])%list /\
    records (out_db o1) = (records d ++ [r1])%list /\
    users (out_db o2) = users (out_db o1) /\
    records (out_db o2) = (records (out_db o1) ++ [r2])%list /\
    rec_user_id r1 = uid /\ rec_user_id r2 = uid /\
    List.length (users (out_db o1)) = S (List.length (users d)) /\
    List.length (records (out_db o1)) = S (List.length (records d)) /\
    List.length (users (out_db o2)) = List.length (users (out_db o1)) /\
    List.length (records (out_db o2)) = S (List.length (records (out_db o1))).
Proof.
  intros o1 o2 Hnew Hsame S1 S2.
  destruct (on_calculate_and_save_cases now1 d g1) as [[F _]|H1];
    [fold o1 in F; congruence|].
  destruct H1 as (w1 & h1 & b1 & uid & d1 & Hne & _ & Hu1 & Hs1 & _). fold o1 in Hs1.
  destruct (on_calculate_and_save_cases now2 (out_db o1) g2) as [[F _]|H2];
    [fold o2 in F; congruence|].
  destruct H2 as (w2 & h2 & b2 & uid2 & d2 & _ & _ & Hu2 & Hs2 & _). fold o2 in Hs2.
  assert (Hne' : strip (strip (name_var g1)) <> "") by (rewrite strip_idem; exact Hne).
  assert (Hnew' : has_user (strip (strip (name_var g1))) d = false)
    by (rewrite strip_idem; exact Hnew).
  pose proof (get_or_create_user_new _ d Hne' Hnew') as E1.
  rewrite strip_idem in E1. rewrite Hu1 in E1. injection E1 as Euid Ed1.
  destruct (save_record_ok _ _ _ _ _ _ _ _ Hs1) as (w1' & h1' & b1' & _ & _ & _ & Ed).
  assert (K : has_user (strip (name_var g1)) (out_db o1) = true).
  { rewrite Ed, Ed1. unfold has_user. simpl. rewrite existsb_app. simpl.
    rewrite String.eqb_refl. apply orb_true_iff. right. reflexivity. }
  assert (Hne2 : strip (strip (name_var g2)) <> "")
    by (rewrite strip_idem, Hsame; exact Hne).
  assert (K2 : has_user (strip (strip (name_var g2))) (out_db o1) = true)
    by (rewrite strip_idem, Hsame; exact K).
  destruct (get_or_create_user_known _ _ Hne2 K2) as (uid' & E2 & Hin).
  rewrite Hu2 in E2. injection E2 as Euid2 Ed2.
  destruct (save_record_ok _ _ _ _ _ _ _ _ Hs2) as (w2' & h2' & b2' & _ & _ & _ & Ed').
  assert (Huid : uid2 = uid).
  { pose proof (get_or_create_user_twice (strip (name_var g1)) d Hne' Hnew'
                  (strip (name_var g2)) uid d1) as T.
    rewrite !strip_idem in T. specialize (T Hsame Hu1).
    pose proof (get_or_create_user_id (strip (name_var g2)) (out_db o1) d1) as I.
    rewrite Ed in I. specialize (I eq_refl eq_refl). rewrite <- Ed in I.
    rewrite Hu2, T in I. simpl in I. congruence. }
  exists uid,
    (mk_record (records_seq d1 + 1) uid now1 w1' h1' b1' (bmi_category b1)),
    (mk_record (records_seq d2 + 1) uid2 now2 w2' h2' b2' (bmi_category b2)).
  rewrite Ed', Ed2, Ed. simpl. rewrite Ed1. simpl. rewrite <- Euid.
  repeat split; try reflexivity; try exact Huid;
    rewrite ?length_app; simpl; lia.
Qed.

(** C10: for a name that is empty or all white space,
    [get_or_create_user] returns [None] and the database it was given, and
    the save action stops at the warning about the missing name, with the
    database and the window as they were. *)
Theorem blank_name_rejected (now : string) (d : db) (g : gui) (name : string) :
  blank name = true ->
  blank (name_var g) = true ->
  get_or_create_user name d = (None, d) /\
  on_calculate_and_save libm_pow py_float now d g
    = mk_outcome d g [ShowWarning "Missing name" "Please enter a user name."] None.
Proof.
  intros Hn Hg. split; [exact (get_or_create_user_blank name d Hn)|].
  unfold on_calculate_and_save. rewrite (strip_blank _ Hg). reflexivity.
Qed.

End HandlerFacts.

(** ** ORDER BY *)

Section OrderBy.

Context {A : Type}.
Variable le : A -> A -> bool.
Hypothesis le_total : forall a b, le a b = true \/ le b a = true.

Lemma insert_by_perm (x : A) (l : list A) : Permutation (insert_by le x l) (x :: l).
Proof.
  induction l as [|y r IH]; simpl; [apply Permutation_refl|].
  destruct (le x y); [apply Permutation_refl|].
  apply Permutation_trans with (y :: x :: r); [|apply perm_swap].
  apply perm_skip, IH.
Qed.

Lemma order_by_perm (l : list A) : Permutation (order_by le l) l.
Proof.
  induction l as [|x l IH]; simpl; [apply perm_nil|].
  apply Permutation_trans with (x :: order_by le l);
    [apply insert_by_perm|apply perm_skip, IH].
Qed.

Lemma insert_by_hdrel (x y : A) (l : list A) :
  holds le y x -> HdRel (holds le) y l -> HdRel (holds le) y (insert_by le x l).
Proof.
  intros Hyx H. destruct l as [|z r]; simpl; [constructor; exact Hyx|].
  destruct (le x z); constructor; [exact Hyx|]. inversion H; assumption.
Qed.

Lemma insert_by_sorted (x : A) (l : list A) :
  Sorted (holds le) l -> Sorted (holds le) (insert_by le x l).
Proof.
  induction l as [|y r IH]; simpl; intros Hs.
  - constructor; constructor.
  - destruct (le x y) eqn:E.
    + constructor; [exact Hs|]. constructor. exact E.
    + inversion Hs as [|? ? Hr Hhd]; subst. constructor; [apply IH, Hr|].
      apply insert_by_hdrel; [|exact Hhd].
      destruct (le_total x y) as [H|H]; [congruence|exact H].
Qed.

Lemma order_by_sorted (l : list A) : Sorted (holds le) (order_by le l).
Proof.
  induction l as [|x l IH]; simpl; [constructor|].
  apply insert_by_sorted, IH.
Qed.

End OrderBy.

(** The order of strings is transitive. *)

Lemma ascii_compare_lt_trans (a b c : ascii) :
  Ascii.compare a b = Lt -> Ascii.compare b c = Lt -> Ascii.compare a c = Lt.
Proof.
  unfold Ascii.compare. rewrite !N.compare_lt_iff. apply N.lt_trans.
Qed.

Lemma string_compare_trans (s1 : string) :
  forall s2 s3,
    String.compare s1 s2 <> Gt -> String.compare s2 s3 <> Gt ->
    String.compare s1 s3 <> Gt.
Proof.
  induction s1 as [|c1 r1 IH]; intros [|c2 r2] [|c3 r3]; simpl; try congruence.
  destruct (Ascii.compare c1 c2) eqn:E12; try congruence;
    destruct (Ascii.compare c2 c3) eqn:E23; try congruence.
  - apply Ascii.compare_eq_iff in E12, E23. subst.
    assert (E : Ascii.compare c3 c3 = Eq) by apply N.compare_refl.
    rewrite E. apply (IH r2 r3).
  - apply Ascii.compare_eq_iff in E12. subst. rewrite E23. congruence.
  - apply Ascii.compare_eq_iff in E23. subst. rewrite E12. congruence.
  - rewrite (ascii_compare_lt_trans _ _ _ E12 E23). congruence.
Qed.

Lemma string_leb_trans (a b c : string) :
  String.leb a b = true -> String.leb b c = true -> String.leb a c = true.
Proof.
  unfold String.leb. intros H1 H2.
  pose proof (string_compare_trans a b c) as T.
  destruct (String.compare a b); try discriminate;
    destruct (String.compare b c); try discriminate;
    destruct (String.compare a c); try reflexivity;
    exfalso; apply T; congruence.
Qed.


Lemma date_leb_total (a b : history_row) : date_leb a b = true \/ date_leb b a = true.
Proof. apply String.leb_total. Qed.

Lemma date_le_trans : Relations_1.Transitive date_le.
Proof. intros a b c. apply string_leb_trans. Qed.

Lemma as_dicts_same (uid : Z) (d : db) :
  fetch_all_records_for_user_as_dicts uid d = fetch_records_for_user uid d.
Proof.
  unfold fetch_all_records_for_user_as_dicts.
  induction (fetch_records_for_user uid d) as [|[i dt w h b c] l IH]; simpl;
    [reflexivity|]. rewrite IH. reflexivity.
Qed.

(** C9: the rows [fetch_records_for_user] returns are the records of that
    user, each once, in ascending order of their dates, and the history
    table, the chart and the CSV export receive them in that order. *)
Theorem fetch_records_for_user_sorted (uid : Z) (d : db) :
  let rows := fetch_records_for_user uid d in
  StronglySorted date_le rows /\
  Permutation rows
    (map select_columns (filter (fun r => rec_user_id r =? uid) (records d))) /\
  fetch_all_records_for_user_as_dicts uid d = rows /\
  (forall g, map (fun row => hd "" row) (tree (populate_history_for_user uid d g))
             = map h_date rows) /\
  (forall g, map fst (plot_points (ax (plot_for_user uid d g))) = map h_date rows).
Proof.
  intros rows. split; [|split; [|split; [|split]]].
  - apply Sorted_StronglySorted; [exact date_le_trans|].
    apply (order_by_sorted date_leb date_leb_total).
  - apply order_by_perm.
  - apply as_dicts_same.
  - intros g. unfold populate_history_for_user. fold rows.
    destruct (summary (map h_bmi rows)) as [[m mn] mx]. simpl.
    rewrite map_map. reflexivity.
  - intros g. unfold plot_for_user. fold rows.
    destruct rows as [|r l]; [reflexivity|].
    cbn [set_plot ax plot_points]. rewrite map_map. reflexivity.
Qed.




(** ** The summary *)

(** C8: the three labels [populate_history_for_user] sets are the summary
    of the BMIs of the user's records; over no record all three read N/A,
    and over the BMIs 18, 22 and 30 they read mean 23.33, min 18.00 and
    max 30.00. *)
Theorem summary_statistics :
  (forall uid d g,
     let g' := populate_history_for_user uid d g in
     (stat_mean g', stat_min g', stat_max g')
       = summary (map h_bmi (fetch_records_for_user uid d))) /\
  summary [] = ("Mean BMI: N/A", "Min BMI: N/A", "Max BMI: N/A") /\
  summary bmi_list = ("Mean BMI: 23.33", "Min BMI: 18.00", "Max BMI: 30.00").
Proof.
  split; [|split].
  - intros uid d g. unfold populate_history_for_user.
    destruct (summary (map h_bmi (fetch_records_for_user uid d))) as [[m mn] mx].
    reflexivity.
  - reflexivity.
  - vm_compute. reflexivity.
Qed.

(** ** Export *)

Lemma csv_text_lines (str_float : float -> string) (recs : list history_row) :
  csv_text str_float recs
    = header_line ++ String.concat "" (map (data_line str_float) recs).
Proof. reflexivity. Qed.

Lemma float_repr_70 : float_repr w70 = "70.0".
Proof. vm_compute. reflexivity. Qed.

Lemma float_repr_1_75 : float_repr h1_75 = "1.75".
Proof. vm_compute. reflexivity. Qed.

Lemma float_repr_bmi : float_repr (fdiv w70 (fmul h1_75 h1_75)) = "22.857142857142858".
Proof. vm_compute. reflexivity. Qed.

Section ExportFacts.

Variable str_float : float -> string.
Variable dataframe_to_csv : list history_row -> string.

Lemma export_csv_branch (env : export_env) (fs : files) (d : db) (g : gui) (uid : Z) :
  pandas_available env = false ->
  chosen_path env <> "" ->
  os_error env = None ->
  strip (user_combo_var g) <> "" ->
  find_user_id (strip (user_combo_var g)) d = Some uid ->
  fetch_records_for_user uid d <> [] ->
  export_history_csv str_float dataframe_to_csv env fs d g =
    ((chosen_path env, csv_text str_float (fetch_records_for_user uid d)) :: fs,
     [ShowInfo "Exported" ("History exported to: " ++ chosen_path env)]).
Proof.
  intros Hp Hpath Hos Hname Hu Hrows. unfold export_history_csv.
  destruct (String.eqb_spec (strip (user_combo_var g)) "") as [E|_]; [contradiction|].
  rewrite Hu, as_dicts_same.
  destruct (fetch_records_for_user uid d) as [|r l] eqn:Er; [contradiction|].
  destruct (String.eqb_spec (chosen_path env) "") as [E|_]; [contradiction|].
  rewrite Hos, Hp. reflexivity.
Qed.

End ExportFacts.

(** C6, as amended: when [pandas] is not importable, exporting the history
    of the selected user writes the header line
    [date,weight_kg,height_m,bmi,category] followed by one data line per
    record of that user, each value written by [str]; for a record of 70 kg
    and 1.75 m the bmi field is the stored quotient in full,
    [22.857142857142858], not its two-decimal rounding. *)
Theorem export_history_csv_text (str_float : float -> string)
    (dataframe_to_csv : list history_row -> string)
    (env : export_env) (fs : files) (d : db) (g : gui) (uid : Z) :
  pandas_available env = false ->
  chosen_path env <> "" ->
  os_error env = None ->
  strip (user_combo_var g) <> "" ->
  find_user_id (strip (user_combo_var g)) d = Some uid ->
  fetch_records_for_user uid d <> [] ->
  let rows := fetch_records_for_user uid d in
  export_history_csv str_float dataframe_to_csv env fs d g =
    ((chosen_path env,
      header_line ++ String.concat "" (map (data_line str_float) rows)) :: fs,
     [ShowInfo "Exported" ("History exported to: " ++ chosen_path env)]) /\
  List.length (map (data_line str_float) rows)
    = List.length (filter (fun r => rec_user_id r =? uid) (records d)) /\
  (forall id date cat,
     data_line float_repr (mk_history id date w70 h1_75 (fdiv w70 (fmul h1_75 h1_75)) cat)
       = String.concat "," [field date; "70.0"; "1.75"; "22.857142857142858"; field cat]
         ++ line_terminator).
Proof.
  intros Hp Hpath Hos Hname Hu Hrows rows. split; [|split].
  - rewrite (export_csv_branch str_float dataframe_to_csv env fs d g uid); auto.
  - rewrite length_map. unfold rows, fetch_records_for_user.
    rewrite (Permutation_length (order_by_perm date_leb _)), length_map. reflexivity.
  - intros id date cat. unfold data_line. cbn [h_date h_weight_kg h_height_m h_bmi h_category].
    rewrite float_repr_70, float_repr_1_75, float_repr_bmi. reflexivity.
Qed.

(** The hypotheses of [export_history_csv_text] hold for Ann's one record. *)
Lemma export_history_csv_text_witness :
  export_history_csv float_repr no_pandas to_disk [] (out_db first_save) ann_selected =
    ([("Ann_bmi_history.csv",
       header_line ++ String.concat ""
         (map (data_line float_repr) (fetch_records_for_user 1 (out_db first_save))))],
     [ShowInfo "Exported" "History exported to: Ann_bmi_history.csv"]).
Proof.
  apply (export_history_csv_text float_repr no_pandas to_disk [] (out_db first_save)
           ann_selected 1); try reflexivity; vm_compute; discriminate.
Defined.

(** C6 fails as stated: the file written for the one record of 70 kg and
    1.75 m has the bmi field [22.857142857142858]; the display precision
    would give [22.86]. *)
Lemma export_writes_full_precision :
  export_history_csv float_repr no_pandas to_disk [] (out_db first_save) ann_selected =
    ([("Ann_bmi_history.csv",
       "date,weight_kg,height_m,bmi,category" ++ line_terminator ++
       "2026-01-01T10:00:00,70.0,1.75,22.857142857142858,Normal" ++ line_terminator)],
     [ShowInfo "Exported" "History exported to: Ann_bmi_history.csv"]) /\
  map h_bmi (fetch_records_for_user 1 (out_db first_save)) = [fdiv w70 (fmul h1_75 h1_75)] /\
  format_2f (fdiv w70 (fmul h1_75 h1_75)) = "22.86" /\
  float_repr (fdiv w70 (fmul h1_75 h1_75)) <> format_2f (fdiv w70 (fmul h1_75 h1_75)).
Proof.
  repeat split; try (vm_compute; reflexivity).
  vm_compute. discriminate.
Qed.


(** C7 fails as stated: the save action accepts the weight [-5] and stores
    a record with it. *)
Lemma negative_weight_is_stored :
  is_saved negative_save = true /\
  map rec_weight_kg (records (out_db negative_save)) = [float_of_int (-5)] /\
  flt lit_0 (float_of_int (-5)) = false /\
  flt (float_of_int (-5)) lit_0 = true.
Proof. repeat split; vm_compute; reflexivity. Qed.

(** The hypotheses of [save_new_then_known_user] hold for two saves for
    Ann, the second typed with spaces around the name. *)
Lemma save_new_then_known_user_witness :
  exists uid r1 r2,
    users (out_db first_save) = (users empty_db ++ [mk_user uid "Ann"])%list /\
    records (out_db first_save) = (records empty_db ++ [r1])%list /\
    users (out_db second_save) = users (out_db first_save) /\
    records (out_db second_save) = (records (out_db first_save) ++ [r2])%list /\
    rec_user_id r1 = uid /\ rec_user_id r2 = uid /\
    List.length (users (out_db first_save)) = S (List.length (users empty_db)) /\
    List.length (records (out_db first_save)) = S (List.length (records empty_db)) /\
    List.length (users (out_db second_save)) = List.length (users (out_db first_save)) /\
    List.length (records (out_db second_save)) = S (List.length (records (out_db first_save))).
Proof.
  apply (save_new_then_known_user pow_sample Parse.float_of_str clock1 clock2 empty_db
           (typed "Ann" "70" "1.75" window)
           (typed " Ann " "72" "1.75" (out_gui first_save))); vm_compute; reflexivity.
Defined.

(** The hypotheses of [blank_name_rejected] hold for names of spaces. *)
Lemma blank_name_rejected_witness :
  get_or_create_user "   " empty_db = (None, empty_db) /\
  on_calculate_and_save pow_sample Parse.float_of_str clock1 empty_db (typed " " "70" "1.75" window)
    = mk_outcome empty_db (typed " " "70" "1.75" window)
        [ShowWarning "Missing name" "Please enter a user name."] None.
Proof.
  apply (blank_name_rejected pow_sample Parse.float_of_str clock1 empty_db
           (typed " " "70" "1.75" window) "   "); reflexivity.
Defined.

(** * Further properties *)

(** ** The invariant of the database *)

Lemma empty_db_wf (libm_pow : float -> float -> float) : db_wf libm_pow empty_db.
Proof.
  unfold db_wf, empty_db; simpl. repeat split; try constructor; lia.
Qed.

Lemma has_user_false_not_in (name : string) (d : db) :
  has_user name d = false -> ~ In name (map user_name (users d)).
Proof.
  unfold has_user. intros H Hin. apply in_map_iff in Hin as (u & Hu & Hin).
  assert (E : existsb (fun u => String.eqb (user_name u) name) (users d) = true).
  { apply existsb_exists. exists u. split; [exact Hin|]. rewrite Hu. apply String.eqb_refl. }
  congruence.
Qed.

Lemma NoDup_snoc {A : Type} (l : list A) (x : A) :
  NoDup l -> ~ In x l -> NoDup (l ++ [x]).
Proof.
  intros Hl Hx. induction Hl as [|y l Hy Hl IH]; simpl.
  - constructor; [intros []|constructor].
  - constructor.
    + rewrite in_app_iff. intros [H|[H|[]]]; [contradiction|]. subst. apply Hx. left. reflexivity.
    + apply IH. intros H. apply Hx. right. exact H.
Qed.

Lemma seq_bound_fresh {A : Type} (key : A -> Z) (l : list A) (seq : Z) :
  Forall (fun x => 0 < key x <= seq) l -> ~ In (seq + 1) (map key l).
Proof.
  intros H Hin. apply in_map_iff in Hin as (x & Hx & Hin).
  rewrite Forall_forall in H. specialize (H x Hin). lia.
Qed.

(** [get_or_create_user] keeps the invariant, and the id it returns is the
    id of the row that has the stripped name. *)
Lemma get_or_create_user_wf (libm_pow : float -> float -> float) (name : string) (d : db) :
  db_wf libm_pow d ->
  db_wf libm_pow (snd (get_or_create_user name d)) /\
  (forall uid, fst (get_or_create_user name d) = Some uid ->
     In (mk_user uid (strip name)) (users (snd (get_or_create_user name d)))) /\
  (fst (get_or_create_user name d) = None <-> blank name = true).
Proof.
  intros (Hn & Hi & Hb & Hs & Hrn & Hrb & Hfk & Hok & Hu0 & Hr0).
  destruct (String.eqb_spec (strip name) "") as [E|Hne].
  - assert (Hbl : blank name = true) by (apply strip_empty_iff; exact E).
    rewrite (get_or_create_user_blank name d Hbl). simpl.
    split; [unfold db_wf; auto 20|]. split; [discriminate|]. tauto.
  - destruct (has_user (strip name) d) eqn:Hk.
    + destruct (get_or_create_user_known name d Hne Hk) as (uid & E & Hin).
      rewrite E. simpl. split; [unfold db_wf; auto 20|].
      split; [intros ? [= <-]; exact Hin|].
      split; [discriminate|]. intros B. apply strip_empty_iff in B. contradiction.
    + rewrite (get_or_create_user_new name d Hne Hk). simpl.
      split; [|split].
      * unfold db_wf; simpl. rewrite !map_app. simpl.
        split; [apply NoDup_snoc; [exact Hn|apply has_user_false_not_in, Hk]|].
        split; [apply NoDup_snoc; [exact Hi|apply (seq_bound_fresh user_id), Hb]|].
        split.
        { apply Forall_app. split.
          - eapply Forall_impl; [|exact Hb]. simpl. intros; lia.
          - constructor; [simpl; lia|constructor]. }
        split.
        { apply Forall_app. split; [exact Hs|].
          constructor; [|constructor]. simpl. split; [exact Hne|apply strip_idem]. }
        split; [exact Hrn|]. split; [exact Hrb|].
        split.
        { eapply Forall_impl; [|exact Hfk]. simpl. intros r Hr.
          apply in_or_app. left. exact Hr. }
        split; [exact Hok|]. lia.
      * intros ? [= <-]. apply in_or_app. right. left. reflexivity.
      * split; [discriminate|]. intros B. apply strip_empty_iff in B. contradiction.
Qed.

Lemma save_record_wf (libm_pow : float -> float -> float) (now : string) (uid : Z)
    (w h b : float) (d d' : db) :
  db_wf libm_pow d ->
  In uid (map user_id (users d)) ->
  calculate_bmi libm_pow w h = Ok b ->
  save_record now uid w h b (bmi_category b) d = Ok d' ->
  db_wf libm_pow d'.
Proof.
  intros (Hn & Hi & Hb & Hs & Hrn & Hrb & Hfk & Hok & Hu0 & Hr0) Huid Hc Hsave.
  destruct (save_record_ok _ _ _ _ _ _ _ _ Hsave) as (w' & h' & b' & Sw & Sh & Sb & ->).
  unfold db_wf; simpl. rewrite !map_app. simpl.
  repeat (split; [assumption|]).
  split; [apply NoDup_snoc; [exact Hrn|apply (seq_bound_fresh rec_id), Hrb]|].
  split.
  { apply Forall_app. split.
    - eapply Forall_impl; [|exact Hrb]. simpl. intros; lia.
    - constructor; [simpl; lia|constructor]. }
  split.
  { apply Forall_app. split; [exact Hfk|]. constructor; [exact Huid|constructor]. }
  split.
  { apply Forall_app. split; [exact Hok|]. constructor; [|constructor].
    exact (stored_record_ok libm_pow now uid w h b w' h' b' _ Hc Sw Sh Sb). }
  lia.
Qed.

(** ** The save action and the invariant *)

Section SaveActionFacts.

Variable libm_pow : float -> float -> float.
Variable py_float : string -> result float.

(** The database after the save action: as it was; or with the user row
    found or made, when [save_record] raised; or with the record added to
    that. *)
Lemma on_calculate_and_save_db (now : string) (d : db) (g : gui) :
  let o := on_calculate_and_save libm_pow py_float now d g in
  out_db o = d \/
  (exists w h b e,
     compute_inputs libm_pow py_float g = Ok (w, h, b, bmi_category b) /\
     strip (name_var g) <> "" /\
     out_db o = snd (get_or_create_user (strip (name_var g)) d) /\
     out_uncaught o = Some e /\ exn_class e = IntegrityError /\
     (is_nan w = true \/ is_nan h = true \/ is_nan b = true)) \/
  (exists w h b uid,
     compute_inputs libm_pow py_float g = Ok (w, h, b, bmi_category b) /\
     fst (get_or_create_user (strip (name_var g)) d) = Some uid /\
     save_record now uid w h b (bmi_category b)
       (snd (get_or_create_user (strip (name_var g)) d)) = Ok (out_db o) /\
     is_saved o = true).
Proof.
  unfold on_calculate_and_save.
  destruct (String.eqb_spec (strip (name_var g)) "") as [E|Hne]; [left; reflexivity|].
  destruct (compute_inputs libm_pow py_float g) as [[[[w h] b] c]|e] eqn:Hc;
    [|left; reflexivity].
  destruct (compute_inputs_ok libm_pow py_float g w h b c Hc) as (_ & _ & _ & ->).
  destruct (get_or_create_user (strip (name_var g)) d) as [[uid|] d1] eqn:Hu.
  - destruct (save_record now uid w h b (bmi_category b) d1) as [d2|e] eqn:Hs.
    + right; right. exists w, h, b, uid. simpl. auto.
    + right; left. exists w, h, b, e. simpl.
      destruct (save_record_raises _ _ _ _ _ _ _ _ Hs) as [Hk Hnan]. auto 10.
  - left. simpl. exact (get_or_create_user_none _ _ _ Hu).
Qed.

Lemma save_action_wf (now : string) (d : db) (g : gui) :
  db_wf libm_pow d ->
  db_wf libm_pow (out_db (on_calculate_and_save libm_pow py_float now d g)).
Proof.
  intros Hwf.
  destruct (get_or_create_user_wf libm_pow (strip (name_var g)) d Hwf) as (Hwf1 & Hin & _).
  destruct (on_calculate_and_save_db now d g) as [E|[H|H]].
  - rewrite E. exact Hwf.
  - destruct H as (w & h & b & e & _ & _ & E & _). rewrite E. exact Hwf1.
  - destruct H as (w & h & b & uid & Hc & Hu & Hs & _).
    destruct (compute_inputs_ok libm_pow py_float g w h b _ Hc) as (_ & _ & Hb & _).
    apply (save_record_wf libm_pow now uid w h b _ _ Hwf1); [|exact Hb|exact Hs].
    apply in_map_iff. exists (mk_user uid (strip (strip (name_var g)))).
    split; [reflexivity|]. apply Hin, Hu.
Qed.

Lemma save_action_appends (now : string) (d : db) (g : gui) :
  let o := on_calculate_and_save libm_pow py_float now d g in
  exists new_users new_records,
    users (out_db o) = (users d ++ new_users)%list /\
    records (out_db o) = (records d ++ new_records)%list /\
    (List.length new_users <= 1)%nat /\ (List.length new_records <= 1)%nat /\
    (new_records <> [] -> is_saved o = true) /\
    Forall (fun u => user_id u = users_seq d + 1) new_users /\
    Forall (fun r => rec_id r = records_seq d + 1) new_records /\
    users_seq (out_db o) = users_seq d + Z.of_nat (List.length new_users) /\
    records_seq (out_db o) = records_seq d + Z.of_nat (List.length new_records).
Proof.
  intros o.
  assert (G : exists nu,
             users (snd (get_or_create_user (strip (name_var g)) d)) = (users d ++ nu)%list /\
             (List.length nu <= 1)%nat /\
             Forall (fun u => user_id u = users_seq d + 1) nu /\
             users_seq (snd (get_or_create_user (strip (name_var g)) d))
               = users_seq d + Z.of_nat (List.length nu)).
  { unfold get_or_create_user.
    destruct (String.eqb (strip (strip (name_var g))) "");
      [exists []; simpl; rewrite app_nil_r; repeat split; auto; lia|].
    destruct (find _ (users d));
      [exists []; simpl; rewrite app_nil_r; repeat split; auto; lia|].
    eexists [_]. simpl. repeat split; auto; lia. }
  destruct G as (nu & Gu & Gl & Gi & Gs).
  pose proof (get_or_create_user_records (strip (name_var g)) d) as Gr.
  pose proof (get_or_create_user_seq (strip (name_var g)) d) as Gq.
  destruct (on_calculate_and_save_db now d g) as [E|[H|H]]; fold o in E || fold o in H.
  - exists [], []. rewrite E, !app_nil_r. simpl. repeat split; auto; try lia; congruence.
  - destruct H as (w & h & b & e & _ & _ & E & _). exists nu, [].
    rewrite E, Gu, Gr, Gq, Gs, app_nil_r. simpl. repeat split; auto; try lia; congruence.
  - destruct H as (w & h & b & uid & _ & _ & Hs & Hsaved).
    destruct (save_record_ok _ _ _ _ _ _ _ _ Hs) as (w' & h' & b' & _ & _ & _ & E).
    exists nu. eexists [_]. rewrite E. simpl. rewrite Gu, Gr, Gq, Gs. simpl.
    repeat split; auto; lia.
Qed.

(** X1: the save action keeps the invariant of the database, whatever is
    typed and whether or not it saves. *)
Theorem on_calculate_and_save_keeps_invariant (now : string) (d : db) (g : gui) :
  db_wf libm_pow d ->
  db_wf libm_pow (out_db (on_calculate_and_save libm_pow py_float now d g)).
Proof. exact (save_action_wf now d g). Qed.

(** X2: the save action never changes or removes a row: the tables before
    it are prefixes of the tables after it, with at most one row more
    each; a new row takes the next id of its table, a new record means the
    save succeeded, and the counters grow by the number of new rows. *)
Theorem on_calculate_and_save_only_appends (now : string) (d : db) (g : gui) :
  let o := on_calculate_and_save libm_pow py_float now d g in
  exists new_users new_records,
    users (out_db o) = (users d ++ new_users)%list /\
    records (out_db o) = (records d ++ new_records)%list /\
    (List.length new_users <= 1)%nat /\ (List.length new_records <= 1)%nat /\
    (new_records <> [] -> is_saved o = true) /\
    Forall (fun u => user_id u = users_seq d + 1) new_users /\
    Forall (fun r => rec_id r = records_seq d + 1) new_records /\
    users_seq (out_db o) = users_seq d + Z.of_nat (List.length new_users) /\
    records_seq (out_db o) = records_seq d + Z.of_nat (List.length new_records).
Proof. exact (save_action_appends now d g). Qed.


End SaveActionFacts.

(** The invariant holds after the two sample saves for Ann. *)
Lemma on_calculate_and_save_keeps_invariant_witness :
  db_wf pow_sample (out_db second_save).
Proof.
  apply (on_calculate_and_save_keeps_invariant pow_sample Parse.float_of_str clock2
           (out_db first_save) (typed " Ann " "72" "1.75" (out_gui first_save))).
  apply (save_action_wf pow_sample Parse.float_of_str), empty_db_wf.
Defined.


(** ** [clear_all_records] *)


Section AfterClearing.

Variable libm_pow : float -> float -> float.
Variable py_float : string -> result float.


(** ** [on_calculate_only] *)

(** X6: calculating without saving never touches the database; when the inputs
    are accepted it shows no dialog and sets the two result labels to what
    the save action shows for the same inputs; when they are refused it
    shows the one error dialog the save action shows and leaves the window
    as it was. *)
Theorem on_calculate_only_agrees (now : string) (d : db) (g : gui) :
  let c := on_calculate_only libm_pow py_float d g in
  let o := on_calculate_and_save libm_pow py_float now d g in
  out_db c = d /\ out_uncaught c = None /\
  (is_saved o = true ->
     out_dialogs c = [] /\
     result_str (out_gui c) = result_str (out_gui o) /\
     cat_str (out_gui c) = cat_str (out_gui o)) /\
  (forall e, compute_inputs libm_pow py_float g = Raise e ->
     out_gui c = g /\
     out_dialogs c = [ShowError "Input error" ("Invalid input: " ++ exn_text e)] /\
     (strip (name_var g) <> "" -> out_dialogs o = out_dialogs c /\ out_db o = d)).
Proof.
  intros c o. unfold c, o, on_calculate_only, on_calculate_and_save.
  destruct (compute_inputs libm_pow py_float g) as [[[[w h] b] cat]|e] eqn:Hc.
  - split; [reflexivity|]. split; [reflexivity|]. split; [|discriminate].
    destruct (String.eqb (strip (name_var g)) ""); [discriminate|].
    destruct (get_or_create_user (strip (name_var g)) d) as [[uid|] d1]; [|discriminate].
    destruct (save_record now uid w h b cat d1) as [d2|e]; [|discriminate].
    intros _. cbn [out_gui out_dialogs]. split; [reflexivity|].
    set (g1 := set_result g _ _).
    assert (R : forall x, result_str (refresh_users_dropdown d2 x) = result_str x
                       /\ cat_str (refresh_users_dropdown d2 x) = cat_str x).
    { intros x. unfold refresh_users_dropdown.
      destruct (mem_str _ _); split; reflexivity. }
    assert (S : forall x, result_str (on_user_selected d2 x) = result_str x
                       /\ cat_str (on_user_selected d2 x) = cat_str x).
    { intros x. unfold on_user_selected.
      destruct (String.eqb (user_combo_var x) ""); [split; reflexivity|].
      destruct (find_user_id _ _); [|split; reflexivity].
      unfold plot_for_user, populate_history_for_user.
      destruct (summary _) as [[m mn] mx].
      destruct (fetch_records_for_user z d2); split; reflexivity. }
    destruct (String.eqb _ (strip (name_var g)));
      rewrite ?(proj1 (S _)), ?(proj2 (S _)), (proj1 (R g1)), (proj2 (R g1)); split; reflexivity.
  - split; [reflexivity|]. split; [reflexivity|]. split.
    + destruct (String.eqb (strip (name_var g)) ""); discriminate.
    + intros e' [= <-]. split; [reflexivity|]. split; [reflexivity|].
      intros Hne. destruct (String.eqb_spec (strip (name_var g)) "") as [E|_];
        [contradiction|]. split; reflexivity.
Qed.

End AfterClearing.


(** ** [fetch_users] *)

Lemma lower_zero (c : ascii) : lower c = Ascii.zero <-> c = Ascii.zero.
Proof.
  split; [|intros ->; reflexivity].
  destruct c as [[] [] [] [] [] [] [] []]; vm_compute; intros H; try reflexivity; discriminate.
Qed.

Lemma N_of_ascii_zero (c : ascii) : (N_of_ascii c =? 0)%N = true <-> c = Ascii.zero.
Proof.
  split; [|intros ->; reflexivity].
  destruct c as [[] [] [] [] [] [] [] []]; vm_compute; intros H; try reflexivity; discriminate.
Qed.

Lemma ascii_compare_refl (c : ascii) : Ascii.compare c c = Eq.
Proof. apply N.compare_refl. Qed.

Lemma strnicmp_antisym (a : string) :
  forall b, strnicmp b a = CompOpp (strnicmp a b).
Proof.
  induction a as [|x a IH]; intros [|y b]; simpl; try reflexivity.
  destruct (Ascii.eqb_spec (lower x) (lower y)) as [E|N].
  - destruct (Ascii.eqb_spec (lower y) (lower x)) as [_|N']; [|congruence].
    rewrite !orb_false_r.
    destruct (N_of_ascii x =? 0)%N eqn:Zx.
    + assert (x = Ascii.zero) by (apply N_of_ascii_zero; exact Zx). subst x.
      assert (y = Ascii.zero) by (apply lower_zero; rewrite <- E; reflexivity). subst y.
      reflexivity.
    + destruct (N_of_ascii y =? 0)%N eqn:Zy; [|apply IH].
      assert (y = Ascii.zero) by (apply N_of_ascii_zero; exact Zy). subst y.
      assert (x = Ascii.zero) by (apply lower_zero; rewrite E; reflexivity). subst x.
      discriminate.
  - destruct (Ascii.eqb_spec (lower y) (lower x)) as [E'|_]; [congruence|].
    rewrite !orb_true_r. apply Ascii.compare_antisym.
Qed.

Lemma nocase_compare_antisym (a b : string) :
  nocase_compare b a = CompOpp (nocase_compare a b).
Proof.
  unfold nocase_compare. rewrite (strnicmp_antisym (utf8 a) (utf8 b)).
  destruct (strnicmp (utf8 a) (utf8 b)); simpl; try reflexivity.
  apply Nat.compare_antisym.
Qed.

Lemma nocase_leb_total (a b : string) : nocase_leb a b = true \/ nocase_leb b a = true.
Proof.
  unfold nocase_leb. rewrite (nocase_compare_antisym a b).
  destruct (nocase_compare a b); simpl; auto.
Qed.

(** X7: [fetch_users] returns every user row once, in the order of NOCASE. *)
Theorem fetch_users_sorted (d : db) :
  Sorted (holds name_leb) (fetch_users d) /\ Permutation (fetch_users d) (users d).
Proof.
  split.
  - apply (order_by_sorted name_leb).
    intros a b. apply nocase_leb_total.
  - apply order_by_perm.
Qed.

(** ** Looking a user up by name *)

Lemma NoDup_map_inj {A B : Type} (f : A -> B) (l : list A) (x y : A) :
  NoDup (map f l) -> In x l -> In y l -> f x = f y -> x = y.
Proof.
  induction l as [|a l IH]; simpl; [intros _ []|].
  intros Hnd Hx Hy E. inversion Hnd as [|? ? Hna Hl]; subst.
  destruct Hx as [<-|Hx], Hy as [<-|Hy]; auto.
  - exfalso. apply Hna. rewrite E. apply in_map, Hy.
  - exfalso. apply Hna. rewrite <- E. apply in_map, Hx.
Qed.

Lemma find_user_id_in (d : db) (name : string) :
  NoDup (map user_name (users d)) ->
  (forall uid, In (mk_user uid name) (users d) -> find_user_id name d = Some uid) /\
  (find_user_id name d = None <-> ~ In name (map user_name (users d))).
Proof.
  intros Hnd. pose proof (order_by_perm name_leb (users d)) as P.
  fold (fetch_users d) in P. unfold find_user_id. split.
  - intros uid Hin.
    destruct (find _ (fetch_users d)) as [u|] eqn:F.
    + destruct (find_some _ _ F) as [Hu Heq]. apply String.eqb_eq in Heq.
      assert (u = mk_user uid name).
      { apply (NoDup_map_inj user_name (users d)); auto.
        apply (Permutation_in _ P), Hu. }
      subst u. reflexivity.
    + exfalso. pose proof (find_none _ _ F (mk_user uid name)) as N.
      simpl in N. rewrite String.eqb_refl in N.
      assert (false = true); [|discriminate]. symmetry. apply N.
      apply (Permutation_in _ (Permutation_sym P)), Hin.
  - split.
    + destruct (find _ (fetch_users d)) as [u|] eqn:F; [discriminate|]. intros _ Hin.
      apply in_map_iff in Hin as (u & Hu & Hin).
      pose proof (find_none _ _ F u (Permutation_in _ (Permutation_sym P) Hin)) as N.
      simpl in N. rewrite Hu, String.eqb_refl in N. discriminate.
    + intros Hnot. destruct (find _ (fetch_users d)) as [u|] eqn:F; [|reflexivity].
      exfalso. destruct (find_some _ _ F) as [Hu Heq]. apply String.eqb_eq in Heq.
      apply Hnot. rewrite <- Heq. apply in_map, (Permutation_in _ P), Hu.
Qed.

(** X8: in a table whose names are pairwise distinct, the lookup by name
    of [on_user_selected] and [export_history_csv] finds the id of the row
    with that name, and fails exactly for a name no row has. *)
Theorem find_user_id_lookup (d : db) (name : string) :
  NoDup (map user_name (users d)) ->
  (forall uid, In (mk_user uid name) (users d) -> find_user_id name d = Some uid) /\
  (find_user_id name d = None <-> ~ In name (map user_name (users d))).
Proof. exact (find_user_id_in d name). Qed.

(** The lookup of Ann after the first sample save. *)
Lemma find_user_id_lookup_witness :
  (forall uid, In (mk_user uid "Ann") (users (out_db first_save)) ->
     find_user_id "Ann" (out_db first_save) = Some uid) /\
  (find_user_id "Ann" (out_db first_save) = None <->
     ~ In "Ann" (map user_name (users (out_db first_save)))).
Proof.
  apply (find_user_id_lookup (out_db first_save) "Ann").
  vm_compute. repeat constructor. intros [].
Defined.

(** ** Saving, then listing *)

Section SavedIsListed.

Variable libm_pow : float -> float -> float.
Variable py_float : string -> result float.

(** X9: what is saved is found again: after a save that succeeded, the lookup
    by the stripped name gives a user id, and the rows listed for that id
    hold the new record, with the clock reading as its date and the next
    record id. *)
Theorem saved_record_is_listed (now : string) (d : db) (g : gui) :
  db_wf libm_pow d ->
  let o := on_calculate_and_save libm_pow py_float now d g in
  is_saved o = true ->
  exists uid row,
    find_user_id (strip (name_var g)) (out_db o) = Some uid /\
    In row (fetch_records_for_user uid (out_db o)) /\
    h_id row = records_seq d + 1 /\ h_date row = now /\
    (forall w, py_float (weight_var g) = Ok w -> sqlite_real w = Some (h_weight_kg row)) /\
    h_category row = bmi_category (h_bmi row).
Proof.
  intros Hwf o Hsaved.
  pose proof (save_action_wf libm_pow py_float now d g Hwf) as Hwf'.
  fold o in Hwf'.
  destruct (on_calculate_and_save_db libm_pow py_float now d g) as [E|[H|H]]; fold o in E || fold o in H.
  - exfalso.
    destruct (on_calculate_and_save_cases libm_pow py_float now d g) as [[F _]|C];
      [fold o in F; congruence|].
    destruct C as (w & h & b & uid & d1 & _ & _ & Hu & Hs & _). fold o in Hs.
    destruct (save_record_ok _ _ _ _ _ _ _ _ Hs) as (w' & h' & b' & _ & _ & _ & E').
    pose proof (get_or_create_user_records (strip (name_var g)) d) as Hr.
    rewrite Hu in Hr. simpl in Hr.
    assert (L : List.length (records (out_db o)) = List.length (records d))
      by (rewrite E; reflexivity).
    rewrite E' in L. simpl in L. rewrite length_app, Hr in L. simpl in L. lia.
  - exfalso. destruct H as (w & h & b & e & _ & _ & _ & Hun & _).
    unfold is_saved in Hsaved. rewrite Hun in Hsaved. discriminate.
  - destruct H as (w & h & b & uid & Hc & Hu & Hs & _).
    destruct (compute_inputs_ok libm_pow py_float g w h b _ Hc) as (Hw & _ & Hb & _).
    destruct (get_or_create_user_wf libm_pow (strip (name_var g)) d Hwf) as (_ & Hin & _).
    specialize (Hin uid Hu). rewrite strip_idem in Hin.
    destruct (save_record_ok _ _ _ _ _ _ _ _ Hs) as (w' & h' & b' & Sw & _ & Sb & E).
    pose proof (get_or_create_user_seq (strip (name_var g)) d) as Hq.
    exists uid, (mk_history (records_seq d + 1) now w' h' b' (bmi_category b)).
    split; [|split].
    + destruct Hwf' as (Hnd & _).
      apply (find_user_id_in (out_db o) (strip (name_var g)) Hnd).
      rewrite E. simpl. exact Hin.
    + unfold fetch_records_for_user.
      apply (Permutation_in _ (Permutation_sym (order_by_perm date_leb _))).
      apply in_map_iff.
      exists (mk_record (records_seq d + 1) uid now w' h' b' (bmi_category b)).
      split; [reflexivity|]. apply filter_In. split; [|simpl; apply Z.eqb_refl].
      rewrite E. simpl. rewrite Hq. apply in_or_app. right. left. reflexivity.
    + simpl. repeat split.
      * intros w0 Hw0. rewrite Hw in Hw0. injection Hw0 as <-. exact Sw.
      * symmetry. exact (bmi_category_sqlite _ _ Sb).
Qed.

End SavedIsListed.

(** The first sample save is listed for Ann. *)
Lemma saved_record_is_listed_witness :
  exists uid row,
    find_user_id "Ann" (out_db first_save) = Some uid /\
    In row (fetch_records_for_user uid (out_db first_save)) /\
    h_id row = records_seq empty_db + 1 /\ h_date row = clock1 /\
    (forall w, Parse.float_of_str "70" = Ok w -> sqlite_real w = Some (h_weight_kg row)) /\
    h_category row = bmi_category (h_bmi row).
Proof.
  apply (saved_record_is_listed pow_sample Parse.float_of_str clock1 empty_db
           (typed "Ann" "70" "1.75" window)).
  - apply empty_db_wf.
  - vm_compute. reflexivity.
Defined.

(** ** [refresh_users_dropdown] *)



(** ** [on_user_selected] *)

(** X11: selecting a user fills the table with that user's records, one
    row each, and sets the statistics to their summary, leaving the
    entries, the result labels and the combobox as they are; with no
    selection, or a name no row has, the window stays as it is. *)
Theorem on_user_selected_shows_user (d : db) (g : gui) :
  NoDup (map user_name (users d)) ->
  (forall uid, In (mk_user uid (user_combo_var g)) (users d) -> user_combo_var g <> "" ->
     let g' := on_user_selected d g in
     let mine := filter (fun r => rec_user_id r =? uid) (records d) in
     tree g' = history_rows uid d /\
     List.length (tree g') = List.length mine /\
     (stat_mean g', stat_min g', stat_max g')
       = summary (map h_bmi (fetch_records_for_user uid d)) /\
     (name_var g', weight_var g', height_var g', result_str g', cat_str g')
       = (name_var g, weight_var g, height_var g, result_str g, cat_str g) /\
     (user_combo_var g', user_combo_values g') = (user_combo_var g, user_combo_values g)) /\
  (user_combo_var g = "" \/ ~ In (user_combo_var g) (map user_name (users d)) ->
     on_user_selected d g = g).
Proof.
  intros Hnd. destruct (find_user_id_in d (user_combo_var g) Hnd) as [Hfound Hnone].
  split.
  - intros uid Hin Hne g' mine. unfold g', on_user_selected.
    destruct (String.eqb_spec (user_combo_var g) "") as [E|_]; [contradiction|].
    rewrite (Hfound uid Hin).
    assert (P : Permutation (fetch_records_for_user uid d) (map select_columns mine))
      by apply order_by_perm.
    assert (L : List.length (history_rows uid d) = List.length mine).
    { unfold history_rows. rewrite length_map, (Permutation_length P). apply length_map. }
    revert L. unfold plot_for_user, populate_history_for_user, history_rows.
    destruct (summary (map h_bmi (fetch_records_for_user uid d))) as [[m mn] mx].
    destruct (fetch_records_for_user uid d) as [|r rows]; cbn; intros L;
      repeat split; try reflexivity; exact L.
  - intros [E|N]; unfold on_user_selected.
    + rewrite E. reflexivity.
    + destruct (String.eqb (user_combo_var g) ""); [reflexivity|].
      rewrite (proj2 Hnone N). reflexivity.
Qed.

(** Ann selected after the first sample save, and no selection. *)
Lemma on_user_selected_shows_user_witness :
  List.length (tree ann_selected) = 1%nat /\
  on_user_selected (out_db first_save) (out_gui first_save) = out_gui first_save.
Proof.
  assert (Hnd : NoDup (map user_name (users (out_db first_save))))
    by (vm_compute; repeat constructor; intros []).
  split.
  - apply (proj1 (on_user_selected_shows_user (out_db first_save)
                    (set_combo (out_gui first_save) "Ann"
                       (user_combo_values (out_gui first_save))) Hnd) 1);
      vm_compute; [left; reflexivity|discriminate].
  - apply (proj2 (on_user_selected_shows_user (out_db first_save) (out_gui first_save) Hnd)).
    left. vm_compute. reflexivity.
Defined.

(** ** [export_history_csv]: when a file is written *)

Section ExportOutcomes.

Variable str_float : float -> string.
Variable dataframe_to_csv : list history_row -> string.


End ExportOutcomes.

(** ** The bands are ordered *)

(** X13: a greater BMI never falls in a lower band. *)
Theorem bmi_category_monotone (a b : float) :
  fle a b = true ->
  (category_rank (bmi_category a) <= category_rank (bmi_category b))%nat.
Proof.
  intros Hab. unfold bmi_category.
  destruct (flt a lit_18_5) eqn:A1; [apply Nat.le_0_l|].
  assert (B1 : flt b lit_18_5 = false).
  { destruct (flt b lit_18_5) eqn:B; [|reflexivity].
    rewrite (fle_flt_trans a b lit_18_5 Hab B) in A1. discriminate. }
  rewrite B1.
  destruct (flt a lit_25_0) eqn:A2; [destruct (flt b lit_25_0), (flt b lit_30_0); vm_compute; lia|].
  assert (B2 : flt b lit_25_0 = false).
  { destruct (flt b lit_25_0) eqn:B; [|reflexivity].
    rewrite (fle_flt_trans a b lit_25_0 Hab B) in A2. discriminate. }
  rewrite B2.
  destruct (flt a lit_30_0) eqn:A3; [destruct (flt b lit_30_0); vm_compute; lia|].
  assert (B3 : flt b lit_30_0 = false).
  { destruct (flt b lit_30_0) eqn:B; [|reflexivity].
    rewrite (fle_flt_trans a b lit_30_0 Hab B) in A3. discriminate. }
  rewrite B3. apply Nat.le_refl.
Qed.

(** The two outer band bounds. *)
Lemma bmi_category_monotone_witness :
  (category_rank (bmi_category lit_18_5) <= category_rank (bmi_category lit_30_0))%nat.
Proof. apply bmi_category_monotone. reflexivity. Defined.

(** ** [min] and [max] over the BMIs *)

Lemma fle_refl (x : float) : is_nan x = false -> fle x x = true.
Proof.
  intros H. pose proof (feq_refl x H) as E. unfold feq, SFeqb in E. unfold fle, SFleb.
  destruct (SFcompare x x) as [[ | | ]|]; try discriminate; reflexivity.
Qed.

Lemma flt_fle (a b : float) : flt a b = true -> fle a b = true.
Proof.
  unfold flt, fle, SFltb, SFleb.
  destruct (SFcompare a b) as [[ | | ]|]; try discriminate; reflexivity.
Qed.

Lemma fle_trans (a b c : float) : fle a b = true -> fle b c = true -> fle a c = true.
Proof.
  intros H1 H2. destruct (fle_not_nan _ _ H1) as [Na _].
  destruct (fle_not_nan _ _ H2) as [_ Nc].
  destruct (fle a c) eqn:E; [reflexivity|].
  pose proof (fle_false_gt a c Na Nc E) as G.
  pose proof (flt_fle_trans c a b G H1) as G'.
  rewrite (fle_flt_asym b c H2) in G'. discriminate.
Qed.

Lemma min_of_least (xs : list float) :
  forall x,
    Forall (fun y => is_nan y = false) (x :: xs) ->
    In (min_of x xs) (x :: xs) /\
    Forall (fun y => fle (min_of x xs) y = true) (x :: xs).
Proof.
  unfold min_of. induction xs as [|a xs IH]; intros x Hx.
  - inversion Hx as [|? ? Nx _]; subst. simpl. split; [auto|].
    constructor; [apply fle_refl, Nx|constructor].
  - inversion Hx as [|? ? Nx Hr]; subst. inversion Hr as [|? ? Na Hxs]; subst.
    cbn [fold_left]. destruct (flt a x) eqn:L.
    + destruct (IH a Hr) as [Hin Hall]. split; [right; exact Hin|].
      inversion Hall as [|? ? Ha _]; subst.
      constructor; [|exact Hall].
      apply (fle_trans _ a x Ha), flt_fle, L.
    + destruct (IH x (Forall_cons x Nx Hxs)) as [Hin Hall]. split.
      * destruct Hin as [<-|Hin]; [left; reflexivity|right; right; exact Hin].
      * inversion Hall as [|? ? Hx' Hrest]; subst.
        constructor; [exact Hx'|]. constructor; [|exact Hrest].
        apply (fle_trans _ x a Hx'), (flt_false_ge a x Na Nx L).
Qed.

Lemma max_of_greatest (xs : list float) :
  forall x,
    Forall (fun y => is_nan y = false) (x :: xs) ->
    In (max_of x xs) (x :: xs) /\
    Forall (fun y => fle y (max_of x xs) = true) (x :: xs).
Proof.
  unfold max_of. induction xs as [|a xs IH]; intros x Hx.
  - inversion Hx as [|? ? Nx _]; subst. simpl. split; [auto|].
    constructor; [apply fle_refl, Nx|constructor].
  - inversion Hx as [|? ? Nx Hr]; subst. inversion Hr as [|? ? Na Hxs]; subst.
    cbn [fold_left]. destruct (flt x a) eqn:L.
    + destruct (IH a Hr) as [Hin Hall]. split; [right; exact Hin|].
      inversion Hall as [|? ? Ha _]; subst.
      constructor; [|exact Hall].
      apply (fle_trans x a _ (flt_fle _ _ L) Ha).
    + destruct (IH x (Forall_cons x Nx Hxs)) as [Hin Hall]. split.
      * destruct Hin as [<-|Hin]; [left; reflexivity|right; right; exact Hin].
      * inversion Hall as [|? ? Hx' Hrest]; subst.
        constructor; [exact Hx'|]. constructor; [|exact Hrest].
        apply (fle_trans a x _ (flt_false_ge x a Nx Na L) Hx').
Qed.

Lemma record_ok_not_nan (libm_pow : float -> float -> float) (r : record_row) :
  record_ok libm_pow r -> is_nan (rec_bmi r) = false.
Proof.
  intros ((sq & _ & _ & E) & _). destruct (rec_bmi r); try reflexivity. discriminate.
Qed.

Lemma populate_history_labels (uid : Z) (d : db) (g : gui) :
  let g' := populate_history_for_user uid d g in
  (stat_mean g', stat_min g', stat_max g')
    = summary (map h_bmi (fetch_records_for_user uid d)).
Proof.
  unfold populate_history_for_user.
  destruct (summary (map h_bmi (fetch_records_for_user uid d))) as [[m mn] mx].
  reflexivity.
Qed.

(** X14: in a database that satisfies the invariant, the Min and Max labels of
    a user with records show a BMI of one of the user's records that is
    the least, respectively the greatest, of them. *)
Theorem history_min_max (libm_pow : float -> float -> float) (uid : Z) (d : db) (g : gui) :
  db_wf libm_pow d ->
  fetch_records_for_user uid d <> [] ->
  let g' := populate_history_for_user uid d g in
  let bmis := map h_bmi (fetch_records_for_user uid d) in
  exists lo hi,
    In lo bmis /\ In hi bmis /\
    Forall (fun b => fle lo b = true /\ fle b hi = true) bmis /\
    stat_min g' = "Min BMI: " ++ format_2f lo /\
    stat_max g' = "Max BMI: " ++ format_2f hi.
Proof.
  intros Hwf Hne g' bmis.
  assert (Hnan : Forall (fun y => is_nan y = false) bmis).
  { unfold bmis. apply Forall_forall. intros b Hb.
    apply in_map_iff in Hb as (row & <- & Hrow).
    apply (Permutation_in _ (order_by_perm date_leb _)) in Hrow.
    apply in_map_iff in Hrow as (r & <- & Hr). apply filter_In in Hr as [Hr _].
    destruct Hwf as (_ & _ & _ & _ & _ & _ & _ & Hok & _).
    rewrite Forall_forall in Hok. exact (record_ok_not_nan libm_pow r (Hok r Hr)). }
  pose proof (populate_history_labels uid d g) as S. cbv zeta in S.
  fold g' in S. fold bmis in S.
  destruct bmis as [|b bs] eqn:B.
  - exfalso. apply Hne. unfold bmis in B.
    destruct (fetch_records_for_user uid d); [reflexivity|discriminate].
  - destruct (min_of_least bs b Hnan) as [Imin Lmin].
    destruct (max_of_greatest bs b Hnan) as [Imax Lmax].
    exists (min_of b bs), (max_of b bs). cbn [summary] in S.
    injection S as _ Smin Smax.
    split; [exact Imin|]. split; [exact Imax|]. split; [|split; assumption].
    rewrite Forall_forall in *. intros y Hy. split; auto.
Qed.

(** The labels after the two sample saves for Ann. *)
Lemma history_min_max_witness :
  exists lo hi,
    In lo (map h_bmi (fetch_records_for_user 1 (out_db second_save))) /\
    In hi (map h_bmi (fetch_records_for_user 1 (out_db second_save))) /\
    Forall (fun b => fle lo b = true /\ fle b hi = true)
      (map h_bmi (fetch_records_for_user 1 (out_db second_save))) /\
    stat_min (populate_history_for_user 1 (out_db second_save) window)
      = "Min BMI: " ++ format_2f lo /\
    stat_max (populate_history_for_user 1 (out_db second_save) window)
      = "Max BMI: " ++ format_2f hi.
Proof.
  apply (history_min_max pow_sample 1 (out_db second_save) window).
  - apply (save_action_wf pow_sample Parse.float_of_str).
    apply (save_action_wf pow_sample Parse.float_of_str), empty_db_wf.
  - vm_compute. discriminate.
Defined.

(** ** Sessions *)











Section SessionFacts.

Variable libm_pow : float -> float -> float.
Variable py_float : string -> result float.







End SessionFacts.


